(** * Binary STL importer (src/stl_binary.cpp): format sniffer and decoder

    A shallow embedding of [StlBinary::is_stl_binary], [StlBinary::import],
    [StlBinary::load] and [StlBinary::to_model], and the properties of
    the importer checked against it.

    Platform assumptions, the ones the source's comments make: an LP64
    little-endian host ([size_t] is 64 bits wide, [unsigned int] and
    [uint32_t] 32 bits), IEEE-754 binary32 [float] and binary64 [double],
    expressions evaluated in the precision of their type. *)

From Stdlib Require Import ZArith List String Ascii Bool Lia.
From Stdlib Require Import Init.Byte.
From Stdlib Require Import Floats.SpecFloat.
Import ListNotations.
Open Scope Z_scope.

(** ** Machine integers *)

Module Machine.

(** Arithmetic of [unsigned int] / [uint32_t]: modulo 2^32. *)
Definition wrap32 (z : Z) : Z := z mod 2 ^ 32.

(** Arithmetic of [size_t]: modulo 2^64. *)
Definition wrap64 (z : Z) : Z := z mod 2 ^ 64.

(** [std::string::npos], the largest [size_t]. *)
Definition npos : Z := 2 ^ 64 - 1.

(** The largest file offset ([off_t], signed 64 bits). *)
Definition off_max : Z := 2 ^ 63 - 1.

(** The value of one byte, 0..255. *)
Definition byte_val (b : byte) : Z := Z.of_N (Byte.to_N b).

(** An object in memory is the list of its bytes, lowest address first.
    [nth_byte] reads one of them. *)
Definition nth_byte (i : nat) (obj : list byte) : Z :=
  byte_val (nth i obj x00).

(** The value of a 4-byte object read as [uint32_t] on a little-endian
    host. *)
Definition u32_of_bytes (obj : list byte) : Z :=
  nth_byte 0 obj
  + Z.shiftl (nth_byte 1 obj) 8
  + Z.shiftl (nth_byte 2 obj) 16
  + Z.shiftl (nth_byte 3 obj) 24.

(** [store data old]: the bytes [data] written over the start of the
    object [old]; the bytes of [old] behind them stay. *)
Definition store (data old : list byte) : list byte :=
  (data ++ skipn (List.length data) old)%list.

End Machine.
Import Machine.

(** ** Floating point: binary32 and binary64 over [spec_float] *)

(** [float]: 24 bits of precision, exponents up to 128. *)
Module F32.
Definition prec : Z := 24.
Definition emax : Z := 128.
Definition sub : spec_float -> spec_float -> spec_float := SFsub prec emax.
Definition mul : spec_float -> spec_float -> spec_float := SFmul prec emax.
Definition ltb : spec_float -> spec_float -> bool := SFltb.
Definition leb : spec_float -> spec_float -> bool := SFleb.
Definition of_Z (z : Z) : spec_float := binary_normalize prec emax z 0 false.

(** The [float] whose object representation is the 32-bit word [w]:
    sign bit 31, biased exponent bits 30..23, fraction bits 22..0. *)
Definition of_bits (w : Z) : spec_float :=
  let s := Z.testbit w 31 in
  let e := Z.land (Z.shiftr w 23) 255 in
  let m := Z.land w (2 ^ 23 - 1) in
  if e =? 0 then
    match m with
    | Zpos p => S754_finite s p (-149)
    | _ => S754_zero s
    end
  else if e =? 255 then
    (if m =? 0 then S754_infinity s else S754_nan)
  else
    match m + 2 ^ 23 with
    | Zpos p => S754_finite s p (e - 150)
    | _ => S754_nan
    end.
End F32.

(** [double]: 53 bits of precision, exponents up to 1024. *)
Module F64.
Definition prec : Z := 53.
Definition emax : Z := 1024.
Definition sub : spec_float -> spec_float -> spec_float := SFsub prec emax.
Definition mul : spec_float -> spec_float -> spec_float := SFmul prec emax.
Definition div : spec_float -> spec_float -> spec_float := SFdiv prec emax.
Definition of_Z (z : Z) : spec_float := binary_normalize prec emax z 0 false.

(** A decimal literal [num/den] of type [double]: the binary64 nearest
    to the quotient. *)
Definition literal (num den : Z) : spec_float := div (of_Z num) (of_Z den).
End F64.

(** Conversions between the two formats: [float] to [double] is exact,
    [double] to [float] rounds to nearest, ties to even. *)
Definition convert (prec emax : Z) (x : spec_float) : spec_float :=
  match x with
  | S754_finite s m e => binary_normalize prec emax (cond_Zopp s (Zpos m)) e s
  | _ => x
  end.
Definition double_of_float : spec_float -> spec_float := convert F64.prec F64.emax.
Definition float_of_double : spec_float -> spec_float := convert F32.prec F32.emax.

(** ** Files and the file system *)

(** A file: its size in bytes and the byte at each offset below it.  The
    size is an [off_t]. *)
Record file : Type := mk_file {
  file_size : Z;
  byte_at : Z -> byte;
  file_size_range : (0 <=? file_size) && (file_size <=? off_max) = true
}.

(** What the path names: [None] when the file cannot be opened. *)
Definition filesystem : Type := string -> option file.

(** The bytes of [f] at offsets [pos], [pos+1], ..., [n] of them. *)
Fixpoint file_bytes (f : file) (pos : Z) (n : nat) : list byte :=
  match n with
  | O => []
  | S n' => byte_at f pos :: file_bytes f (pos + 1) n'
  end.

(** The content of a file given by its first bytes: 00 at every other
    offset. *)
Definition bytes_at (l : list byte) (i : Z) : byte :=
  if i <? 0 then x00 else nth (Z.to_nat i) l x00.

(** ** Outcomes: a call returns a value or throws *)

(** What a stream operation throws when the exception mask selects a bit
    it sets, and what an allocation throws when it fails. *)
Inductive exception : Type :=
| ios_failure : exception
| bad_alloc : exception.

Inductive outcome (A : Type) : Type :=
| Returns : A -> outcome A
| Throws : exception -> outcome A.
Arguments Returns {A} _.
Arguments Throws {A} _.

Definition bind {A B : Type} (c : outcome A) (k : A -> outcome B) : outcome B :=
  match c with
  | Returns a => k a
  | Throws e => Throws e
  end.

Notation "x <- c ;; k" := (bind c (fun x => k))
  (at level 61, c at next level, right associativity).
Notation "' pat <- c ;; k" := (bind c (fun x => match x with pat => k end))
  (at level 61, pat pattern, c at next level, right associativity).

(** ** [std::ifstream] *)

Module Ios.

(** [std::ios_base::iostate] bits. *)
Definition goodbit : Z := 0.
Definition badbit : Z := 1.
Definition eofbit : Z := 2.
Definition failbit : Z := 4.

(** The stream: the file behind it ([None] when the open failed), the
    get position, the error state and the exception mask. *)
Record ifstream : Type := mk_ifstream {
  content : option file;
  gpos : Z;
  rdstate : Z;
  exceptions : Z
}.

(** [good()]: no bit of the error state is set. *)
Definition good (s : ifstream) : bool := rdstate s =? goodbit.

(** [clear(state)]: sets the error state, and throws when the exception
    mask selects one of its bits. *)
Definition clear (state : Z) (s : ifstream) : outcome ifstream :=
  let s' := mk_ifstream (content s) (gpos s) state (exceptions s) in
  if Z.land (exceptions s) state =? 0 then Returns s' else Throws ios_failure.

(** [setstate(state)] is [clear(rdstate() | state)]. *)
Definition setstate (state : Z) (s : ifstream) : outcome ifstream :=
  clear (Z.lor (rdstate s) state) s.

(** [sentry(is, true)]: a stream that is not good gets [failbit] and the
    operation is skipped. *)
Definition sentry (s : ifstream) : outcome (ifstream * bool) :=
  if good s then Returns (s, true)
  else s' <- setstate failbit s ;; Returns (s', false).

(** The constructor [ifstream(filename, in | binary)]: a fresh stream
    (exception mask [goodbit]); [failbit] when the open fails. *)
Definition open (fs : filesystem) (filename : string) : outcome ifstream :=
  let s := mk_ifstream (fs filename) 0 goodbit goodbit in
  match fs filename with
  | Some _ => clear goodbit s
  | None => setstate failbit s
  end.

(** The file buffer's seek: fails ([None]) on a closed file and on a
    negative target; a target behind the end of the file is accepted. *)
Definition filebuf_seek (s : ifstream) (target : Z) : option Z :=
  match content s with
  | Some _ => if target <? 0 then None else Some target
  | None => None
  end.

Definition seek_to (s : ifstream) (target : option Z) : outcome ifstream :=
  match target with
  | Some p => Returns (mk_ifstream (content s) p (rdstate s) (exceptions s))
  | None => setstate failbit s
  end.

(** [seekg(pos)]: clears [eofbit], then seeks unless the stream failed. *)
Definition seekg (pos : Z) (s : ifstream) : outcome ifstream :=
  s <- clear (Z.land (rdstate s) (Z.lnot eofbit)) s ;;
  '(s, ok) <- sentry s ;;
  if ok then seek_to s (filebuf_seek s pos) else Returns s.

(** [seekg(off, beg)] and [seekg(off, end)]. *)
Definition seekg_beg (off : Z) (s : ifstream) : outcome ifstream :=
  seekg off s.

Definition seekg_end (off : Z) (s : ifstream) : outcome ifstream :=
  s <- clear (Z.land (rdstate s) (Z.lnot eofbit)) s ;;
  '(s, ok) <- sentry s ;;
  if ok then
    seek_to s match content s with
              | Some f => filebuf_seek s (file_size f + off)
              | None => None
              end
  else Returns s.

(** [tellg()]: the get position, [pos_type(-1)] on a stream that is not
    good. *)
Definition tellg (s : ifstream) : outcome (ifstream * Z) :=
  '(s, ok) <- sentry s ;;
  if ok then Returns (s, gpos s) else Returns (s, -1).

(** What the file buffer delivers for a request of [n] bytes: the bytes
    between the get position and the end of the file, at most [n]. *)
Definition sgetn (s : ifstream) (n : Z) : list byte :=
  match content s with
  | Some f =>
      let avail := Z.max 0 (Z.min n (file_size f - gpos s)) in
      file_bytes f (gpos s) (Z.to_nat avail)
  | None => []
  end.

(** [read((char* )&x, n)] with [n = sizeof x], [obj] being the bytes of
    [x] before the call: the bytes delivered overwrite the start of [x];
    fewer than [n] sets [eofbit | failbit].  On a stream that is not
    good nothing is stored.  Returns the stream and the bytes of [x]
    after the call. *)
Definition read (n : nat) (obj : list byte) (s : ifstream)
  : outcome (ifstream * list byte) :=
  '(s, ok) <- sentry s ;;
  if ok then
    let data := sgetn s (Z.of_nat n) in
    let got := Z.of_nat (List.length data) in
    let s' := mk_ifstream (content s) (gpos s + got) (rdstate s) (exceptions s) in
    if got =? Z.of_nat n then Returns (s', store data obj)
    else s'' <- setstate (Z.lor eofbit failbit) s' ;;
         Returns (s'', store data obj)
  else Returns (s, obj).

End Ios.
Import Ios.

(** ** The model the importer fills in *)

(** Modelled from the spec: the header that declares [Point3] is not part
    of the sources at hand; the spec has it as a 3-component
    floating-point coordinate (x, y, z). *)
Record Point3 : Type := mk_Point3 {
  x : spec_float;
  y : spec_float;
  z : spec_float
}.

(** Modelled from the spec: [Face], declared in a header that is not at
    hand, is an ordered sequence of [Point3] vertices. *)
Record Face : Type := mk_Face { vertices : list Point3 }.

(** Modelled from the spec: [Mesh], an ordered sequence of [Face]. *)
Record Mesh : Type := mk_Mesh { faces : list Face }.

(** Modelled from the spec: [Model], an ordered sequence of [Mesh]. *)
Record Model : Type := mk_Model { meshes : list Mesh }.

(** [std::array<Point3, 3>] and its [operator[]]. *)
Definition array3 : Type := (Point3 * Point3 * Point3)%type.

Definition array3_get (a : array3) (i : nat) : Point3 :=
  match a, i with
  | (p0, _, _), O => p0
  | (_, p1, _), S O => p1
  | (_, _, p2), _ => p2
  end.

(** [v.push_back(a)] (and [v.emplace_back()], which pushes a
    default-constructed element), and a change made through the reference
    [v.back()]. *)
Definition push_back {A : Type} (v : list A) (a : A) : list A := (v ++ [a])%list.

Definition modify_back {A : Type} (f : A -> A) (v : list A) : list A :=
  match rev v with
  | [] => []
  | b :: front => (rev front ++ [f b])%list
  end.

(** The object: its one data member, [triangles].  [stl_binary.hpp],
    which declares it, is not at hand; [load] and [to_model] use it as a
    [std::vector] of [std::array<Point3, 3>]. *)
Record StlBinary : Type := mk_StlBinary { triangles : list array3 }.

(** The bytes that the local variables hold before anything is stored in
    them: [num_triangles], and the nine [float]s of each round of the
    loop of [load] (the round, then the variable, 0 for [v1_x] up to 8 for
    [v3_z]).  The program leaves them uninitialised. *)
Record Uninit : Type := mk_Uninit {
  uninit_num_triangles : list byte;
  uninit_float : Z -> nat -> list byte
}.

(** ** [StlBinary::is_stl_binary] *)

(** [s.find_last_of(chars)]: the index of the last character of [s] that
    is one of the characters of [chars], [npos] when there is none. *)
Fixpoint occurs (c : ascii) (chars : string) : bool :=
  match chars with
  | EmptyString => false
  | String d rest => Ascii.eqb c d || occurs c rest
  end.

Fixpoint find_last_of_from (s chars : string) (i found : Z) : Z :=
  match s with
  | EmptyString => found
  | String c rest =>
      find_last_of_from rest chars (i + 1) (if occurs c chars then i else found)
  end.

Definition find_last_of (s chars : string) : Z := find_last_of_from s chars 0 npos.

Definition string_length (s : string) : Z := Z.of_nat (String.length s).

(** The condition of the first [if]:
    [filename.find_last_of(".stl") == filename.length() - 4]. *)
Definition extension_test (filename : string) : bool :=
  find_last_of filename ".stl" =? wrap64 (string_length filename - 4).

Definition probability_incorrect_extension : spec_float :=
  float_of_double (F64.literal 1 100).

Definition probability_incorrect_size : spec_float :=
  float_of_double (F64.literal 1 10000).

(** The probability after the extension step. *)
Definition extension_step (filename : string) : spec_float :=
  if extension_test filename
  then F32.sub (F32.of_Z 1) probability_incorrect_extension
  else probability_incorrect_extension.

(** The last [if]: the probability adjusted by the size test. *)
Definition size_step (correct_file_size : bool) (probability : spec_float)
  : spec_float :=
  if correct_file_size then
    float_of_double
      (F64.sub (F64.of_Z 1)
         (F64.mul (F64.sub (F64.of_Z 1) (double_of_float probability))
                  (double_of_float probability_incorrect_size)))
  else F32.mul probability probability_incorrect_size.

(** The stream part of the function: the value of the local
    [correct_file_size] when the last [if] looks at it. *)
Definition correct_file_size (u : Uninit) (fs : filesystem) (filename : string)
  : outcome bool :=
  let correct_file_size := true in
  file_handle <- open fs filename ;;
  file_handle <- seekg_end 0 file_handle ;;
  '(file_handle, p) <- tellg file_handle ;;
  let file_size := wrap64 p in
  file_handle <- seekg 0 file_handle ;;
  let correct_file_size :=
    if file_size <? 84 then false else correct_file_size in
  file_handle <- seekg_beg 80 file_handle ;;
  '(file_handle, num_triangles) <- read 4 (uninit_num_triangles u) file_handle ;;
  let num_triangles := u32_of_bytes num_triangles in
  let correct_file_size :=
    if negb (file_size =? wrap32 (84 + wrap32 (50 * num_triangles)))
    then false else correct_file_size in
  Returns correct_file_size.

Definition is_stl_binary (u : Uninit) (fs : filesystem) (filename : string)
  : outcome spec_float :=
  let probability := float_of_double (F64.div (F64.of_Z 1) (F64.of_Z 3)) in
  let probability := extension_step filename in
  correct_file_size <- correct_file_size u fs filename ;;
  Returns (size_step correct_file_size probability).

(** ** [StlBinary::load] *)

(** A [float] variable with the bytes [obj]. *)
Definition float_of_bytes (obj : list byte) : spec_float :=
  F32.of_bits (u32_of_bytes obj).

(** [file_handle.read((char* )&v, sizeof(float))] for the variable number
    [k] of round [i]. *)
Definition read_float (u : Uninit) (i : Z) (k : nat) (file_handle : ifstream)
  : outcome (ifstream * spec_float) :=
  '(file_handle, obj) <- read 4 (uninit_float u i k) file_handle ;;
  Returns (file_handle, float_of_bytes obj).

(** One round of the loop, for [triangle_index]. *)
Definition load_round (u : Uninit) (triangle_index : Z)
  (st : ifstream * StlBinary) : outcome (ifstream * StlBinary) :=
  let '(file_handle, this) := st in
  file_handle <- seekg (wrap64 (wrap64 (84 + wrap64 (triangle_index * 50)) + 12))
                       file_handle ;;
  '(file_handle, v1_x) <- read_float u triangle_index 0 file_handle ;;
  '(file_handle, v1_y) <- read_float u triangle_index 1 file_handle ;;
  '(file_handle, v1_z) <- read_float u triangle_index 2 file_handle ;;
  '(file_handle, v2_x) <- read_float u triangle_index 3 file_handle ;;
  '(file_handle, v2_y) <- read_float u triangle_index 4 file_handle ;;
  '(file_handle, v2_z) <- read_float u triangle_index 5 file_handle ;;
  '(file_handle, v3_x) <- read_float u triangle_index 6 file_handle ;;
  '(file_handle, v3_y) <- read_float u triangle_index 7 file_handle ;;
  '(file_handle, v3_z) <- read_float u triangle_index 8 file_handle ;;
  let triangle : array3 :=
    (mk_Point3 v1_x v1_y v1_z,
     mk_Point3 v2_x v2_y v2_z,
     mk_Point3 v3_x v3_y v3_z) in
  Returns (file_handle, mk_StlBinary (push_back (triangles this) triangle)).

(** The loop: [rounds] more rounds, the next one for [triangle_index]. *)
Fixpoint load_loop (u : Uninit) (rounds : nat) (triangle_index : Z)
  (st : ifstream * StlBinary) : outcome (ifstream * StlBinary) :=
  match rounds with
  | O => Returns st
  | S rounds' =>
      st' <- load_round u triangle_index st ;;
      load_loop u rounds' (triangle_index + 1) st'
  end.

(** The triangle count after the clamp, from the count read and the size
    found. *)
Definition clamp (file_size num_triangles : Z) : Z :=
  if wrap64 (file_size - 84) / 50 <? num_triangles
  then wrap32 (wrap64 (file_size - 84) / 50)
  else num_triangles.

(** The body of [load], with the stream as it is when the function
    returns (and the stream is destroyed).  Memory is taken to suffice:
    [triangles.reserve(num_triangles)] (line 82) and [push_back] change
    the capacity only and are not modelled as able to throw
    [std::bad_alloc].  Where the count is clamped it is bounded by the
    size of the file; where it is not (a path that cannot be opened, a
    file of fewer than 84 bytes) the real call can throw for a large
    count, and what is proved of those paths is proved of the runs that
    return. *)
Definition load_run (u : Uninit) (fs : filesystem) (filename : string)
  (this : StlBinary) : outcome (ifstream * StlBinary) :=
  file_handle <- open fs filename ;;
  file_handle <- seekg_beg 80 file_handle ;;
  '(file_handle, num_triangles) <- read 4 (uninit_num_triangles u) file_handle ;;
  let num_triangles := u32_of_bytes num_triangles in
  file_handle <- seekg_end 0 file_handle ;;
  '(file_handle, p) <- tellg file_handle ;;
  let file_size := wrap64 p in
  file_handle <- seekg_beg 84 file_handle ;;
  let num_triangles := clamp file_size num_triangles in
  (* triangles.reserve(num_triangles) changes the capacity only *)
  load_loop u (Z.to_nat num_triangles) 0 (file_handle, this).

Definition load (u : Uninit) (fs : filesystem) (filename : string)
  (this : StlBinary) : outcome StlBinary :=
  '(_, this) <- load_run u fs filename this ;;
  Returns this.

(** ** [StlBinary::to_model] *)

(** The body of the range-[for]: a new face at the back of the mesh, and
    the three vertices pushed through the reference to it. *)
Definition add_face (mesh : Mesh) (triangle : array3) : Mesh :=
  let mesh := mk_Mesh (push_back (faces mesh) (mk_Face [])) in
  let push (k : nat) (face : Face) : Face :=
    mk_Face (push_back (vertices face) (array3_get triangle k)) in
  let mesh := mk_Mesh (modify_back (push 0%nat) (faces mesh)) in
  let mesh := mk_Mesh (modify_back (push 1%nat) (faces mesh)) in
  let mesh := mk_Mesh (modify_back (push 2%nat) (faces mesh)) in
  mesh.

Definition to_model (this : StlBinary) : Model :=
  let model := mk_Model [] in
  let model := mk_Model (push_back (meshes model) (mk_Mesh [])) in
  (* mesh is a reference to model.meshes.back() *)
  mk_Model
    (modify_back (fun mesh => fold_left add_face (triangles this) mesh)
                 (meshes model)).

(** ** [StlBinary::import] *)

(** The line written to [std::cout], with the newline of [std::endl]. *)
Definition import_message (filename : string) : string :=
  ("Importing binary STL file: " ++ filename ++ String "010"%char EmptyString)%string.

(** Returns what was written to [std::cout] and the model. *)
Definition import (u : Uninit) (fs : filesystem) (filename : string)
  : outcome (string * Model) :=
  let stl := mk_StlBinary [] in
  stl <- load u fs filename stl ;;
  Returns (import_message filename, to_model stl).

(** ** What the claims speak of *)

(** The count field: the [uint32_t] at offset 80, little-endian. *)
Definition declared_count (f : file) : Z := u32_of_bytes (file_bytes f 80 4).

(** The path's last 4 characters are ".stl". *)
Fixpoint ends_in_stl (filename : string) : bool :=
  match filename with
  | EmptyString => false
  | String _ rest => String.eqb filename ".stl" || ends_in_stl rest
  end.

(** The file is at least 84 bytes long and its size is 84 + 50 N in exact
    arithmetic, N being the declared count. *)
Definition size_exact (f : file) : bool :=
  (84 <=? file_size f) && (file_size f =? 84 + 50 * declared_count f).

(** The [float] at offset [pos] of the file. *)
Definition float_at (f : file) (pos : Z) : spec_float :=
  float_of_bytes (file_bytes f pos 4).

(** The three vertices of triangle record [i], which starts at
    84 + 50 i: behind the 12 bytes of the normal vector come v1 at +12,
    v2 at +24 and v3 at +36, each as x, y, z. *)
Definition record_triangle (f : file) (i : Z) : array3 :=
  let b := 84 + 50 * i in
  (mk_Point3 (float_at f (b + 12)) (float_at f (b + 16)) (float_at f (b + 20)),
   mk_Point3 (float_at f (b + 24)) (float_at f (b + 28)) (float_at f (b + 32)),
   mk_Point3 (float_at f (b + 36)) (float_at f (b + 40)) (float_at f (b + 44))).

(** The records [first], [first + 1], ..., [n] of them. *)
Fixpoint record_triangles (f : file) (first : Z) (n : nat) : list array3 :=
  match n with
  | O => []
  | S n' => record_triangle f first :: record_triangles f (first + 1) n'
  end.

(** The face of a triangle: its three points, in their order. *)
Definition face_of (triangle : array3) : Face :=
  mk_Face [array3_get triangle 0; array3_get triangle 1; array3_get triangle 2].


(** The closed form of the size test as the code computes it: the sum
    84 + 50 N is an [unsigned int]. *)
Definition size_test (o : option file) : bool :=
  match o with
  | Some f => (84 <=? file_size f)
              && (file_size f =? wrap32 (84 + 50 * declared_count f))
  | None => false
  end.

(** ** Inputs, values and predicates of the theorems *)

(** The exception mask is [goodbit], as the constructor leaves it. *)
Definition unmasked (s : ifstream) : Prop := exceptions s = goodbit.

(** Case analysis over the stream operations. *)
Ltac stream_unfold :=
  unfold read, tellg, seekg_end, seekg_beg, seekg, seek_to, filebuf_seek,
    sentry, setstate, clear, good, unmasked in *.

Ltac stream_auto :=
  stream_unfold; cbn in *; subst; cbn;
  repeat match goal with
         | |- context [if ?b then _ else _] => destruct b eqn:?; cbn
         | |- context [match ?c with Some _ => _ | None => _ end] =>
             destruct c eqn:?; cbn
         end;
  eauto 10.

(** A file system with one file. *)
Definition only (name : string) (f : file) : filesystem :=
  fun filename => if String.eqb filename name then Some f else None.

(** No file at all. *)
Definition no_files : filesystem := fun _ => None.

(** 88 bytes: an 80-byte header of zeros, the count 85899346 (52 B8 1E 05,
    little-endian) and four more bytes.  50 * 85899346 is 2^32 + 4. *)
Definition wrap_file : file :=
  mk_file 88
    (bytes_at (repeat x00 80 ++ [x52; xb8; x1e; x05; x00; x00; x00; x00]))
    eq_refl.

(** A well-formed binary STL file of 85899345 triangles (51 B8 1E 05), all
    other bytes zero: 84 + 50 * 85899345 = 4294967334 = 2^32 + 38 bytes. *)
Definition big_file : file :=
  mk_file 4294967334 (bytes_at (repeat x00 80 ++ [x51; xb8; x1e; x05])) eq_refl.

(** The [float]s nearest to 0.01, 0.99, 0.0001 and 0.5. *)
Definition f_001 : spec_float := float_of_double (F64.literal 1 100).
Definition f_099 : spec_float := float_of_double (F64.literal 99 100).
Definition f_00001 : spec_float := float_of_double (F64.literal 1 10000).
Definition f_half : spec_float := float_of_double (F64.literal 1 2).

(** [1 - (1 - p) * 0.0001], evaluated in [double] and rounded to
    [float], as the source writes it. *)
Definition raised (p : spec_float) : spec_float :=
  float_of_double
    (F64.sub (F64.of_Z 1)
       (F64.mul (F64.sub (F64.of_Z 1) (double_of_float p))
                (double_of_float f_00001))).

(** [p * 0.0001], a [float] product. *)
Definition lowered (p : spec_float) : spec_float := F32.mul p f_00001.

(** The four values of the sniffer, by the extension test and the size
    test. *)
Definition four_constants (extension size : bool) : spec_float :=
  match extension, size with
  | true, true => raised f_099
  | true, false => lowered f_099
  | false, true => raised f_001
  | false, false => lowered f_001
  end.

(** 134 bytes of zeros but for the count field, which declares one
    triangle, and a second file that differs from it in the header and in
    the record. *)
Definition one_triangle_zeros : file :=
  mk_file 134 (bytes_at (repeat x00 80 ++ [x01])) eq_refl.

Definition one_triangle_ones : file :=
  mk_file 134
    (bytes_at (repeat x01 80 ++ [x01; x00; x00; x00] ++ repeat x01 50))
    eq_refl.

(** Variables whose bytes were all zero before anything was stored in
    them (a byte that is not listed reads as 00). *)
Definition zero_uninit : Uninit := mk_Uninit [] (fun _ _ => []).

(** 140 bytes that declare five triangles: there is room for one. *)
Definition clamped_file : file :=
  mk_file 140 (bytes_at (repeat x00 80 ++ [x05])) eq_refl.

(** One triangle with the vertices (0,0,0), (1,0,0), (0,1,0): an 80-byte
    header, the count 1, the normal (0,0,1), the nine coordinates and the
    attribute bytes FF FF; 134 bytes. *)
Definition triangle_file : file :=
  mk_file 134
    (bytes_at
       (repeat x20 80 ++ [x01; x00; x00; x00]
        ++ [x00; x00; x00; x00; x00; x00; x00; x00; x00; x00; x80; x3f]
        ++ [x00; x00; x00; x00; x00; x00; x00; x00; x00; x00; x00; x00]
        ++ [x00; x00; x80; x3f; x00; x00; x00; x00; x00; x00; x00; x00]
        ++ [x00; x00; x00; x00; x00; x00; x80; x3f; x00; x00; x00; x00]
        ++ [xff; xff]))
    eq_refl.

(** The [float]s 0 and 1. *)
Definition f_zero : spec_float := S754_zero false.
Definition f_one : spec_float := S754_finite false 8388608 (-23).

(** 83 bytes: the header and three of the four bytes of the count, the
    first of them 01. *)
Definition short_file : file :=
  mk_file 83 (bytes_at (repeat x00 80 ++ [x01; x00; x00])) eq_refl.

(** No byte at all. *)
Definition empty_file : file := mk_file 0 (bytes_at []) eq_refl.

(** [failbit] is bit 2 of the error state. *)
Definition failed (s : ifstream) : bool := Z.testbit (rdstate s) 2.

(** In the course of a round: the stream is good and stands at [q] within
    the file, or [failbit] is set. *)
Definition within_or_failed (f : file) (q : Z) (s : ifstream) : Prop :=
  (s = mk_ifstream (Some f) q goodbit goodbit /\ q <= file_size f)
  \/ (unmasked s /\ failed s = true).

(** ** Further inputs and values *)

(** The [float] nearest to 0.9999. *)
Definition f_09999 : spec_float := float_of_double (F64.literal 9999 10000).

(** One of the characters of [s] is one of [chars]. *)
Fixpoint any_occurs (s chars : string) : bool :=
  match s with
  | EmptyString => false
  | String c rest => occurs c chars || any_occurs rest chars
  end.

(** The triangle of round [i] when none of its nine reads stores
    anything: the three points are what the variables held. *)
Definition uninit_triangle (u : Uninit) (i : Z) : array3 :=
  let v (k : nat) := float_of_bytes (uninit_float u i k) in
  (mk_Point3 (v 0%nat) (v 1%nat) (v 2%nat),
   mk_Point3 (v 3%nat) (v 4%nat) (v 5%nat),
   mk_Point3 (v 6%nat) (v 7%nat) (v 8%nat)).

Fixpoint uninit_triangles (u : Uninit) (first : Z) (n : nat) : list array3 :=
  match n with
  | O => []
  | S n' => uninit_triangle u first :: uninit_triangles u (first + 1) n'
  end.

(** A triangle whose nine coordinates are 1. *)
Definition ones_triangle : array3 :=
  (mk_Point3 f_one f_one f_one,
   mk_Point3 f_one f_one f_one,
   mk_Point3 f_one f_one f_one).

(** The 36 bytes of the three vertices of record [k]. *)
Definition vertex_block (f : file) (k : Z) : list byte :=
  file_bytes f (84 + 50 * k + 12) 36.

(** The number of triangles [load] reads from a file of at least 84
    bytes: the declared count, or the number of whole records behind the
    header where that is smaller. *)
Definition fitting_count (f : file) : Z :=
  Z.min (declared_count f) ((file_size f - 84) / 50).

(** The triangle of [triangle_file] with a header of zeros, no normal
    vector and no attribute bytes. *)
Definition triangle_file_bare : file :=
  mk_file 134
    (bytes_at
       (repeat x00 80 ++ [x01; x00; x00; x00]
        ++ repeat x00 12
        ++ [x00; x00; x00; x00; x00; x00; x00; x00; x00; x00; x00; x00]
        ++ [x00; x00; x80; x3f; x00; x00; x00; x00; x00; x00; x00; x00]
        ++ [x00; x00; x00; x00; x00; x00; x80; x3f; x00; x00; x00; x00]))
    eq_refl.

(** 200 bytes that declare one triangle: 66 bytes follow its record. *)
Definition padded_file : file :=
  mk_file 200 (bytes_at (repeat x00 80 ++ [x01] ++ repeat x00 53 ++ repeat xff 66))
    eq_refl.

(** ** [load] with the allocation of line 82 *)

(** Lines 70-81 of [load]: the stream, and the count after the clamp. *)
Definition load_count (u : Uninit) (fs : filesystem) (filename : string)
  : outcome (ifstream * Z) :=
  file_handle <- open fs filename ;;
  file_handle <- seekg_beg 80 file_handle ;;
  '(file_handle, num_triangles) <- read 4 (uninit_num_triangles u) file_handle ;;
  let num_triangles := u32_of_bytes num_triangles in
  file_handle <- seekg_end 0 file_handle ;;
  '(file_handle, p) <- tellg file_handle ;;
  let file_size := wrap64 p in
  file_handle <- seekg_beg 84 file_handle ;;
  Returns (file_handle, clamp file_size num_triangles).

(** [v.reserve(n)] on a vector of capacity [capacity]; returns the new
    capacity.  Nothing happens when [n] does not exceed the capacity;
    else storage for [n] elements is requested, and [alloc n] says
    whether the request succeeds.  ([n] is a [uint32_t], far below
    [max_size()].) *)
Definition reserve (alloc : Z -> bool) (capacity n : Z) : outcome Z :=
  if n <=? capacity then Returns capacity
  else if alloc n then Returns n
  else Throws bad_alloc.

(** [load] as [import] calls it (lines 63-65), on the object just
    constructed: no element and no capacity.  After [reserve] the
    capacity is at least [num_triangles], so that none of the
    [num_triangles] calls of [push_back] allocates. *)
Definition load_new (alloc : Z -> bool) (u : Uninit) (fs : filesystem)
  (filename : string) : outcome StlBinary :=
  '(file_handle, num_triangles) <- load_count u fs filename ;;
  _ <- reserve alloc 0 num_triangles ;;
  '(_, this) <- load_loop u (Z.to_nat num_triangles) 0
                  (file_handle, mk_StlBinary []) ;;
  Returns this.

(** The 83 bytes of [short_file] read into a [num_triangles] whose last
    byte held FF: the count 4278190081. *)
Definition top_byte_ff : Uninit := mk_Uninit [x00; x00; x00; xff] (fun _ _ => []).

(** A heap that has room for a thousand triangles. *)
Definition room_for_1000 (n : Z) : bool := n <=? 1000.

(** * Properties *)

(** ** Machine arithmetic and files *)

Lemma file_size_bounds (f : file) : 0 <= file_size f <= off_max.
Proof.
  pose proof (file_size_range f) as H.
  apply andb_true_iff in H. destruct H as [H1 H2].
  apply Z.leb_le in H1. apply Z.leb_le in H2. lia.
Qed.

Lemma wrap64_file_size (f : file) : wrap64 (file_size f) = file_size f.
Proof.
  pose proof (file_size_bounds f) as H. unfold off_max in H.
  unfold wrap64. apply Z.mod_small. lia.
Qed.

Lemma wrap32_bounds (a : Z) : 0 <= wrap32 a < 2 ^ 32.
Proof. unfold wrap32. apply Z.mod_pos_bound. lia. Qed.

Lemma wrap32_add_wrap32 (a b : Z) : wrap32 (a + wrap32 b) = wrap32 (a + b).
Proof. unfold wrap32. apply Z.add_mod_idemp_r. lia. Qed.

Lemma byte_val_bounds (b : byte) : 0 <= byte_val b < 256.
Proof.
  unfold byte_val. pose proof (Byte.to_N_bounded b) as H. lia.
Qed.

Lemma u32_of_bytes_bounds (obj : list byte) : 0 <= u32_of_bytes obj < 2 ^ 32.
Proof.
  unfold u32_of_bytes, nth_byte.
  pose proof (byte_val_bounds (nth 0 obj x00)).
  pose proof (byte_val_bounds (nth 1 obj x00)).
  pose proof (byte_val_bounds (nth 2 obj x00)).
  pose proof (byte_val_bounds (nth 3 obj x00)).
  rewrite !Z.shiftl_mul_pow2 by lia. lia.
Qed.

Lemma declared_count_bounds (f : file) : 0 <= declared_count f < 2 ^ 32.
Proof. apply u32_of_bytes_bounds. Qed.

Lemma file_bytes_length (f : file) (n : nat) :
  forall pos, List.length (file_bytes f pos n) = n.
Proof.
  induction n as [|n IH]; intros pos; simpl; [reflexivity|].
  now rewrite IH.
Qed.

(** A full object: the bytes stored replace all that [u32_of_bytes] looks
    at. *)
Lemma u32_of_store_4 (f : file) (pos : Z) (old : list byte) :
  u32_of_bytes (store (file_bytes f pos 4) old) = u32_of_bytes (file_bytes f pos 4).
Proof. reflexivity. Qed.

(** ** The stream *)

(** With the exception mask left at [goodbit] no operation throws: each
    returns a stream with the same mask. *)
Lemma open_returns (fs : filesystem) (filename : string) :
  exists s, open fs filename = Returns s /\ unmasked s.
Proof.
  unfold open. destruct (fs filename); stream_auto.
Qed.

Lemma seekg_returns (pos : Z) (s : ifstream) :
  unmasked s -> exists s', seekg pos s = Returns s' /\ unmasked s'.
Proof. destruct s as [c p st m]. intros H. stream_auto. Qed.

Lemma seekg_end_returns (off : Z) (s : ifstream) :
  unmasked s -> exists s', seekg_end off s = Returns s' /\ unmasked s'.
Proof. destruct s as [c p st m]. intros H. stream_auto. Qed.

Lemma tellg_returns (s : ifstream) :
  unmasked s -> exists s' p, tellg s = Returns (s', p) /\ unmasked s'.
Proof. destruct s as [c p st m]. intros H. stream_auto. Qed.

Lemma read_returns (n : nat) (obj : list byte) (s : ifstream) :
  unmasked s -> exists s' obj', read n obj s = Returns (s', obj') /\ unmasked s'.
Proof. destruct s as [c p st m]. intros H. stream_auto. Qed.

(** On a good stream over the file [f]. *)
Lemma seekg_good (f : file) (p pos : Z) :
  0 <= pos ->
  seekg pos (mk_ifstream (Some f) p goodbit goodbit)
  = Returns (mk_ifstream (Some f) pos goodbit goodbit).
Proof.
  intros H. stream_unfold. cbn.
  destruct (pos <? 0) eqn:E; [apply Z.ltb_lt in E; lia | reflexivity].
Qed.

Lemma seekg_end_good (f : file) (p : Z) :
  seekg_end 0 (mk_ifstream (Some f) p goodbit goodbit)
  = Returns (mk_ifstream (Some f) (file_size f) goodbit goodbit).
Proof.
  pose proof (file_size_bounds f) as H. stream_unfold. cbn.
  rewrite Z.add_0_r.
  destruct (file_size f <? 0) eqn:E; [apply Z.ltb_lt in E; lia | reflexivity].
Qed.

Lemma tellg_good (c : option file) (p : Z) :
  tellg (mk_ifstream c p goodbit goodbit)
  = Returns (mk_ifstream c p goodbit goodbit, p).
Proof. reflexivity. Qed.

(** A read that the file can satisfy delivers the bytes and leaves the
    stream good. *)
Lemma read_full (f : file) (p : Z) (n : nat) (obj : list byte) :
  p + Z.of_nat n <= file_size f ->
  read n obj (mk_ifstream (Some f) p goodbit goodbit)
  = Returns (mk_ifstream (Some f) (p + Z.of_nat n) goodbit goodbit,
             store (file_bytes f p n) obj).
Proof.
  intros H. unfold read, sentry, good, sgetn. cbn.
  replace (Z.max 0 (Z.min (Z.of_nat n) (file_size f - p))) with (Z.of_nat n) by lia.
  rewrite Nat2Z.id, file_bytes_length, Z.eqb_refl.
  unfold store. now rewrite file_bytes_length.
Qed.

(** A read that reaches behind the end of the file sets [eofbit] and
    [failbit]. *)
Lemma read_short (f : file) (p : Z) (n : nat) (obj : list byte) :
  (0 < n)%nat ->
  file_size f < p + Z.of_nat n ->
  exists s' obj',
    read n obj (mk_ifstream (Some f) p goodbit goodbit) = Returns (s', obj')
    /\ rdstate s' = Z.lor eofbit failbit /\ unmasked s'.
Proof.
  intros Hn H. unfold read, sentry, good, sgetn. cbn.
  rewrite file_bytes_length.
  destruct (Z.of_nat (Z.to_nat (Z.max 0 (Z.min (Z.of_nat n) (file_size f - p))))
            =? Z.of_nat n) eqn:E.
  - apply Z.eqb_eq in E. lia.
  - stream_unfold. cbn. eexists. eexists. split; [reflexivity|]. now split.
Qed.

(** On a stream with [failbit] (and nothing else) set: nothing moves,
    nothing is stored, and the stream stays as it is. *)
Lemma seekg_failed (c : option file) (p pos : Z) :
  seekg pos (mk_ifstream c p failbit goodbit)
  = Returns (mk_ifstream c p failbit goodbit).
Proof. reflexivity. Qed.

Lemma tellg_failed (c : option file) (p : Z) :
  tellg (mk_ifstream c p failbit goodbit)
  = Returns (mk_ifstream c p failbit goodbit, -1).
Proof. reflexivity. Qed.

Lemma read_failed (n : nat) (obj : list byte) (c : option file) (p : Z) :
  read n obj (mk_ifstream c p failbit goodbit)
  = Returns (mk_ifstream c p failbit goodbit, obj).
Proof. reflexivity. Qed.

(** ** The sniffer *)

(** The stream part in closed form: whatever the uninitialised
    [num_triangles] held, the local is [size_test] of what the path
    names. *)
Lemma correct_file_size_eq (u : Uninit) (fs : filesystem) (filename : string) :
  correct_file_size u fs filename = Returns (size_test (fs filename)).
Proof.
  unfold correct_file_size, open.
  destruct (fs filename) as [f|]; cbn [size_test].
  - change (clear goodbit (mk_ifstream (Some f) 0 goodbit goodbit))
      with (Returns (mk_ifstream (Some f) 0 goodbit goodbit)).
    cbn [bind]. rewrite seekg_end_good. cbn [bind].
    rewrite tellg_good. cbn [bind]. rewrite wrap64_file_size.
    rewrite seekg_good by lia. cbn [bind].
    unfold seekg_beg. rewrite seekg_good by lia. cbn [bind].
    destruct (file_size f <? 84) eqn:Hsize.
    + apply Z.ltb_lt in Hsize.
      destruct (read_returns 4 (uninit_num_triangles u)
                  (mk_ifstream (Some f) 80 goodbit goodbit) eq_refl)
        as (s' & obj' & -> & _).
      cbn [bind].
      replace (84 <=? file_size f) with false
        by (symmetry; apply Z.leb_gt; lia).
      now destruct (negb _).
    + apply Z.ltb_ge in Hsize.
      rewrite read_full by (cbn; lia). cbn [bind].
      rewrite u32_of_store_4, wrap32_add_wrap32.
      fold (declared_count f).
      replace (84 <=? file_size f) with true
        by (symmetry; apply Z.leb_le; lia).
      now destruct (file_size f =? _).
  - change (setstate failbit (mk_ifstream None 0 goodbit goodbit))
      with (Returns (mk_ifstream None 0 failbit goodbit)).
    cbn [bind].
    change (seekg_end 0 (mk_ifstream None 0 failbit goodbit))
      with (Returns (mk_ifstream None 0 failbit goodbit)).
    cbn [bind]. rewrite tellg_failed. cbn [bind].
    rewrite seekg_failed. cbn [bind].
    unfold seekg_beg. rewrite seekg_failed. cbn [bind].
    rewrite read_failed. cbn [bind].
    pose proof (wrap32_bounds (84 + wrap32 (50 * u32_of_bytes (uninit_num_triangles u)))) as Hw.
    change (wrap64 (-1)) with (2 ^ 64 - 1).
    replace (2 ^ 64 - 1 =? _) with false by (symmetry; apply Z.eqb_neq; lia).
    reflexivity.
Qed.

(** Where 84 + 50 N stays below 2^32 the size test is the exact one. *)
Lemma size_test_exact (f : file) :
  84 + 50 * declared_count f < 2 ^ 32 ->
  size_test (Some f) = size_exact f.
Proof.
  intros H. pose proof (declared_count_bounds f) as Hc.
  unfold size_test, size_exact, wrap32. now rewrite Z.mod_small by lia.
Qed.

Lemma is_stl_binary_eq (u : Uninit) (fs : filesystem) (filename : string) :
  is_stl_binary u fs filename
  = Returns (size_step (size_test (fs filename)) (extension_step filename)).
Proof.
  unfold is_stl_binary. now rewrite correct_file_size_eq.
Qed.

Lemma string_length_app (s1 s2 : string) :
  string_length (s1 ++ s2) = string_length s1 + string_length s2.
Proof.
  unfold string_length.
  induction s1 as [|c s1 IH]; cbn [append String.length]; lia.
Qed.

(** [find_last_of] over a concatenation. *)
Lemma find_last_of_from_app (pre s chars : string) :
  forall i found,
    find_last_of_from (pre ++ s) chars i found
    = find_last_of_from s chars (i + string_length pre)
        (find_last_of_from pre chars i found).
Proof.
  unfold string_length.
  induction pre as [|c pre IH]; intros i found; cbn [append find_last_of_from String.length].
  - now rewrite Z.add_0_r.
  - rewrite IH. f_equal. lia.
Qed.

(** A path that ends in ".stl" has its last character, the 'l', at
    [length - 1]: the test compares that index with [length - 4]. *)
Lemma extension_test_stl_suffix (pre : string) :
  extension_test (pre ++ ".stl") = false.
Proof.
  unfold extension_test, find_last_of.
  rewrite find_last_of_from_app. cbn [find_last_of_from occurs].
  cbn [Ascii.eqb Bool.eqb orb].
  assert (Hlen : string_length (pre ++ ".stl") = string_length pre + 4).
  { now rewrite string_length_app. }
  rewrite Hlen.
  assert (Hp : 0 <= string_length pre) by (unfold string_length; lia).
  apply Z.eqb_neq. unfold wrap64.
  pose proof (Z.mod_le (string_length pre + 4 - 4) (2 ^ 64)) as Hm.
  lia.
Qed.

(** The test passes where the last of the four characters stands at
    [length - 4], and on a path of three characters with none of them,
    where [npos] meets the wrapped [length - 4]. *)
Example extension_test_passes :
  extension_test "a.bcd" = true
  /\ extension_test "mesh.obj" = true
  /\ extension_test "mesh.ply" = false
  /\ extension_test "abc" = true
  /\ extension_test "" = false
  /\ extension_test ".stl" = false.
Proof. repeat split; reflexivity. Qed.

Lemma ends_in_stl_app (pre : string) : ends_in_stl (pre ++ ".stl") = true.
Proof.
  induction pre as [|c pre IH].
  - reflexivity.
  - cbn [append ends_in_stl]. rewrite IH. apply orb_true_r.
Qed.

Example f_001_value : f_001 = S754_finite false 10737418 (-30).
Proof. reflexivity. Qed.

Example f_099_value : f_099 = S754_finite false 16609444 (-24).
Proof. reflexivity. Qed.

Example f_00001_value : f_00001 = S754_finite false 13743895 (-37).
Proof. reflexivity. Qed.

(** [1 - 0.01] in [float] arithmetic is the [float] nearest to 0.99. *)
Lemma one_minus_f_001 : F32.sub (F32.of_Z 1) probability_incorrect_extension = f_099.
Proof. reflexivity. Qed.

Example four_constants_values :
  four_constants true true = S754_finite false 16777199 (-24)
  /\ four_constants true false = S754_finite false 13606456 (-37)
  /\ four_constants false true = S754_finite false 16775555 (-24)
  /\ four_constants false false = S754_finite false 8796093 (-43).
Proof. repeat split; reflexivity. Qed.

Lemma size_step_four_constants (filename : string) (b : bool) :
  size_step b (extension_step filename)
  = four_constants (extension_test filename) b.
Proof.
  unfold extension_step.
  destruct (extension_test filename), b; reflexivity.
Qed.

(** The probability is between 0 and 1 in all four cases. *)
Lemma is_stl_binary_unit_interval (u : Uninit) (fs : filesystem) (filename : string) :
  exists p, is_stl_binary u fs filename = Returns p
            /\ F32.leb (F32.of_Z 0) p = true /\ F32.leb p (F32.of_Z 1) = true.
Proof.
  rewrite is_stl_binary_eq, size_step_four_constants.
  eexists. split; [reflexivity|].
  destruct (extension_test filename), (size_test (fs filename));
    split; reflexivity.
Qed.

(** C3 (the claim fails on the code): the extension step of every path
    that ends in ".stl" yields 0.01, not 1 - 0.01, because
    [find_last_of] finds the final 'l' at [length - 1]; a path such as
    "mesh.obj" or "a.bcd", whose last character among '.', 's', 't', 'l'
    is the '.' at [length - 4], yields 1 - 0.01. *)
Theorem extension_step_stl_suffix :
  (forall pre : string,
      ends_in_stl (pre ++ ".stl") = true
      /\ extension_step (pre ++ ".stl") = probability_incorrect_extension)
  /\ ends_in_stl "mesh.stl" = true
  /\ extension_step "mesh.stl" = f_001
  /\ ends_in_stl "mesh.obj" = false
  /\ extension_step "mesh.obj" = F32.sub (F32.of_Z 1) f_001
  /\ ends_in_stl "a.bcd" = false
  /\ extension_step "a.bcd" = F32.sub (F32.of_Z 1) f_001.
Proof.
  split; [|repeat split; reflexivity].
  intros pre. split; [apply ends_in_stl_app|].
  unfold extension_step. now rewrite extension_test_stl_suffix.
Qed.

(** C4 (the claim fails on the code): on the 88-byte file that declares
    85899346 triangles the size test succeeds, whatever the uninitialised
    variable held, although 84 + 50 * 85899346 is not 88: the sum is
    computed as [unsigned int] and wraps to 88. *)
Theorem correct_file_size_wraps (u : Uninit) :
  correct_file_size u (only "wrap.stl" wrap_file) "wrap.stl" = Returns true
  /\ file_size wrap_file = 88
  /\ declared_count wrap_file = 85899346
  /\ 84 + 50 * declared_count wrap_file = 4294967384
  /\ size_exact wrap_file = false.
Proof.
  rewrite correct_file_size_eq. repeat split; reflexivity.
Qed.

(** C5: the probability [p] of the extension step becomes
    [1 - (1 - p) * 0.0001] when the size test of the code succeeded and
    [p * 0.0001] when it failed, and that is the value returned; the
    arithmetic is the source's (the first in [double], rounded to
    [float]; the second a [float] product). *)
Theorem is_stl_binary_size_update (u : Uninit) (fs : filesystem) (filename : string) :
  exists correct : bool,
    correct_file_size u fs filename = Returns correct
    /\ is_stl_binary u fs filename
       = Returns (if correct
                  then raised (extension_step filename)
                  else lowered (extension_step filename)).
Proof.
  exists (size_test (fs filename)). split.
  - apply correct_file_size_eq.
  - rewrite is_stl_binary_eq. now destruct (size_test (fs filename)).
Qed.

(** C6 (the claim fails on the code, by the wrap-around of C4): the
    88-byte file of C4 under the name "a.obj" has the wrong extension and
    an inconsistent size, yet the probability is above 0.5; the
    well-formed file of 85899345 triangles under the name "big.stl" has
    the ".stl" extension and exactly 84 + 50 N bytes, yet the probability
    is below 0.5. *)
Theorem is_stl_binary_half_wraps (u : Uninit) :
  (ends_in_stl "a.obj" = false
   /\ size_exact wrap_file = false
   /\ exists p, is_stl_binary u (only "a.obj" wrap_file) "a.obj" = Returns p
                /\ F32.ltb f_half p = true)
  /\ (ends_in_stl "big.stl" = true
      /\ size_exact big_file = true
      /\ exists p, is_stl_binary u (only "big.stl" big_file) "big.stl" = Returns p
                   /\ F32.ltb p f_half = true).
Proof.
  split; (split; [reflexivity|split; [reflexivity|]]);
    rewrite is_stl_binary_eq; eexists; split; reflexivity.
Qed.

Lemma file_bytes_ext (f g : file) (n : nat) :
  forall pos,
    (forall i, pos <= i < pos + Z.of_nat n -> byte_at f i = byte_at g i) ->
    file_bytes f pos n = file_bytes g pos n.
Proof.
  induction n as [|n IH]; intros pos H; cbn [file_bytes]; [reflexivity|].
  rewrite (H pos) by lia. f_equal. apply IH. intros i Hi. apply H. lia.
Qed.

(** C10: the value returned is one of four constants, chosen by the
    extension test and the size test of the code: 1 - (1 - 0.99) * 0.0001
    or 0.99 * 0.0001 when the extension test passes, 1 - (1 - 0.01) *
    0.0001 or 0.01 * 0.0001 when it fails.  Two files of the same size
    whose four bytes at offsets 80 to 83 agree get the same value,
    whatever their other bytes and whatever the uninitialised variable
    held. *)
Theorem is_stl_binary_four_constants
  (u : Uninit) (fs : filesystem) (filename : string) :
  is_stl_binary u fs filename
  = Returns (four_constants (extension_test filename) (size_test (fs filename)))
  /\ forall (u' : Uninit) (fs' : filesystem) (f g : file),
      fs filename = Some f ->
      fs' filename = Some g ->
      file_size f = file_size g ->
      (forall i, 80 <= i < 84 -> byte_at f i = byte_at g i) ->
      is_stl_binary u' fs' filename = is_stl_binary u fs filename.
Proof.
  split.
  - now rewrite is_stl_binary_eq, size_step_four_constants.
  - intros u' fs' f g Hf Hg Hsize Hbytes.
    rewrite !is_stl_binary_eq, Hf, Hg. cbn [size_test].
    unfold declared_count.
    rewrite (file_bytes_ext f g 4 80) by (intros i Hi; apply Hbytes; cbn in Hi; lia).
    now rewrite Hsize.
Qed.

(** The theorem of C10 at [one_triangle_zeros] and [one_triangle_ones]. *)
Lemma is_stl_binary_four_constants_witness :
  is_stl_binary (mk_Uninit [] (fun _ _ => []))
    (only "m.stl" one_triangle_ones) "m.stl"
  = is_stl_binary (mk_Uninit [xff; xff; xff; xff] (fun _ _ => []))
      (only "m.stl" one_triangle_zeros) "m.stl".
Proof.
  refine (proj2 (is_stl_binary_four_constants _ _ "m.stl") _ _
            one_triangle_zeros one_triangle_ones eq_refl eq_refl eq_refl _).
  intros i Hi.
  assert (Hcases : i = 80 \/ i = 81 \/ i = 82 \/ i = 83) by lia.
  destruct Hcases as [-> | [-> | [-> | ->]]]; reflexivity.
Defined.

(** ** [to_model] *)

Lemma modify_back_push_back {A : Type} (f : A -> A) (v : list A) (b : A) :
  modify_back f (push_back v b) = push_back v (f b).
Proof.
  unfold modify_back, push_back.
  rewrite rev_app_distr. cbn [rev app]. now rewrite rev_involutive.
Qed.

Lemma add_face_eq (mesh : Mesh) (triangle : array3) :
  add_face mesh triangle = mk_Mesh (push_back (faces mesh) (face_of triangle)).
Proof.
  unfold add_face. cbn [faces].
  now rewrite !modify_back_push_back.
Qed.

Lemma fold_add_face (ts : list array3) :
  forall mesh : Mesh,
    fold_left add_face ts mesh = mk_Mesh (faces mesh ++ map face_of ts).
Proof.
  induction ts as [|t ts IH]; intros mesh; cbn [fold_left map].
  - rewrite app_nil_r. now destruct mesh.
  - rewrite IH, add_face_eq. cbn [faces]. unfold push_back.
    now rewrite <- app_assoc.
Qed.

Lemma to_model_eq (this : StlBinary) :
  to_model this = mk_Model [mk_Mesh (map face_of (triangles this))].
Proof.
  unfold to_model. cbn [meshes].
  change (push_back [] (mk_Mesh [])) with [mk_Mesh []].
  unfold modify_back. cbn [rev app]. now rewrite fold_add_face.
Qed.

(** C7: [to_model] is a function of the triangle list alone; it returns
    a model of exactly one mesh, whose faces are those of the triangles,
    one for one and in their order, each with the triangle's three points
    in their order; on the empty list (before [load]) the model has one
    mesh and no face. *)
Theorem to_model_faces (this : StlBinary) :
  to_model this = mk_Model [mk_Mesh (map face_of (triangles this))]
  /\ List.length (meshes (to_model this)) = 1%nat
  /\ map (fun mesh => List.length (faces mesh)) (meshes (to_model this))
     = [List.length (triangles this)]
  /\ (forall i : nat,
        nth_error (List.concat (map faces (meshes (to_model this)))) i
        = option_map
            (fun triangle =>
               mk_Face [array3_get triangle 0;
                        array3_get triangle 1;
                        array3_get triangle 2])
            (nth_error (triangles this) i))
  /\ (forall p0 p1 p2 : Point3, vertices (face_of (p0, p1, p2)) = [p0; p1; p2])
  /\ to_model (mk_StlBinary []) = mk_Model [mk_Mesh []].
Proof.
  pose proof (to_model_eq this) as H.
  split; [exact H|]. rewrite H. cbn [meshes map faces List.concat].
  split; [reflexivity|]. split; [now rewrite length_map|].
  split; [|split; reflexivity].
  intros i. rewrite app_nil_r. apply nth_error_map.
Qed.

(** ** [load] *)

Lemma read_float_good (u : Uninit) (i : Z) (k : nat) (f : file) (p p' : Z) :
  p' = p + 4 ->
  p' <= file_size f ->
  read_float u i k (mk_ifstream (Some f) p goodbit goodbit)
  = Returns (mk_ifstream (Some f) p' goodbit goodbit, float_at f p).
Proof.
  intros -> H. unfold read_float.
  rewrite read_full by (cbn; lia). reflexivity.
Qed.

(** A round on a good stream whose file holds record [i] up to its last
    vertex: the triangle of the record is appended and the stream stays
    good, behind the last [float] read. *)
Lemma load_round_good (u : Uninit) (f : file) (i p : Z) (this : StlBinary) :
  0 <= i ->
  84 + 50 * i + 48 <= file_size f ->
  load_round u i (mk_ifstream (Some f) p goodbit goodbit, this)
  = Returns (mk_ifstream (Some f) (84 + 50 * i + 48) goodbit goodbit,
             mk_StlBinary (push_back (triangles this) (record_triangle f i))).
Proof.
  intros Hi Hsize. pose proof (file_size_bounds f) as Hf. unfold off_max in Hf.
  unfold load_round.
  assert (Hpos : wrap64 (wrap64 (84 + wrap64 (i * 50)) + 12) = 84 + 50 * i + 12).
  { unfold wrap64. rewrite (Z.mod_small (i * 50)) by lia.
    rewrite (Z.mod_small (84 + i * 50)) by lia.
    rewrite Z.mod_small by lia. lia. }
  rewrite Hpos. rewrite seekg_good by lia. cbn [bind].
  set (b := 84 + 50 * i) in *.
  rewrite (read_float_good u i 0 f (b + 12) (b + 16)) by lia. cbn [bind].
  rewrite (read_float_good u i 1 f (b + 16) (b + 20)) by lia. cbn [bind].
  rewrite (read_float_good u i 2 f (b + 20) (b + 24)) by lia. cbn [bind].
  rewrite (read_float_good u i 3 f (b + 24) (b + 28)) by lia. cbn [bind].
  rewrite (read_float_good u i 4 f (b + 28) (b + 32)) by lia. cbn [bind].
  rewrite (read_float_good u i 5 f (b + 32) (b + 36)) by lia. cbn [bind].
  rewrite (read_float_good u i 6 f (b + 36) (b + 40)) by lia. cbn [bind].
  rewrite (read_float_good u i 7 f (b + 40) (b + 44)) by lia. cbn [bind].
  rewrite (read_float_good u i 8 f (b + 44) (b + 48)) by lia. cbn [bind].
  reflexivity.
Qed.

Lemma load_loop_good (u : Uninit) (f : file) (n : nat) :
  forall (i p : Z) (this : StlBinary),
    0 <= i ->
    p <= file_size f ->
    84 + 50 * (i + Z.of_nat n) <= file_size f ->
    exists p',
      load_loop u n i (mk_ifstream (Some f) p goodbit goodbit, this)
      = Returns (mk_ifstream (Some f) p' goodbit goodbit,
                 mk_StlBinary (triangles this ++ record_triangles f i n))
      /\ p' <= file_size f.
Proof.
  induction n as [|n IH]; intros i p this Hi Hp Hsize;
    cbn [load_loop record_triangles].
  - exists p. rewrite app_nil_r. destruct this. now split.
  - rewrite load_round_good by lia. cbn [bind].
    destruct (IH (i + 1) (84 + 50 * i + 48)
                (mk_StlBinary (push_back (triangles this) (record_triangle f i))))
      as (p' & -> & Hp'); [lia | lia | lia |].
    exists p'. split; [|exact Hp'].
    cbn [triangles]. unfold push_back. now rewrite <- app_assoc.
Qed.

Lemma record_triangles_length (f : file) (n : nat) :
  forall first, List.length (record_triangles f first n) = n.
Proof.
  induction n as [|n IH]; intros first; cbn [record_triangles List.length];
    [reflexivity | now rewrite IH].
Qed.

(** The clamp on a file of at least 84 bytes: the smaller of the declared
    count and the number of whole records behind the header. *)
Lemma clamp_readable (f : file) :
  84 <= file_size f ->
  clamp (file_size f) (declared_count f)
  = Z.min (declared_count f) ((file_size f - 84) / 50).
Proof.
  intros H. pose proof (file_size_bounds f) as Hf. unfold off_max in Hf.
  pose proof (declared_count_bounds f) as Hc.
  unfold clamp, wrap64. rewrite (Z.mod_small (file_size f - 84)) by lia.
  destruct (_ <? _) eqn:E.
  - apply Z.ltb_lt in E.
    assert (0 <= (file_size f - 84) / 50) by (apply Z.div_pos; lia).
    unfold wrap32. rewrite Z.mod_small by lia. lia.
  - apply Z.ltb_ge in E. lia.
Qed.

(** [load] on a readable file of at least 84 bytes. *)
Lemma load_run_readable (u : Uninit) (fs : filesystem) (filename : string)
  (f : file) (this : StlBinary) :
  fs filename = Some f ->
  84 <= file_size f ->
  exists p',
    load_run u fs filename this
    = Returns (mk_ifstream (Some f) p' goodbit goodbit,
               mk_StlBinary
                 (triangles this
                  ++ record_triangles f 0
                       (Z.to_nat (Z.min (declared_count f)
                                        ((file_size f - 84) / 50)))))
    /\ p' <= file_size f.
Proof.
  intros Hfs Hsize. pose proof (declared_count_bounds f) as Hc.
  assert (Hq : 0 <= (file_size f - 84) / 50) by (apply Z.div_pos; lia).
  assert (Hr : 50 * ((file_size f - 84) / 50) <= file_size f - 84)
    by (apply Z.mul_div_le; lia).
  unfold load_run, open. rewrite Hfs.
  change (clear goodbit (mk_ifstream (Some f) 0 goodbit goodbit))
    with (Returns (mk_ifstream (Some f) 0 goodbit goodbit)).
  cbn [bind]. unfold seekg_beg. rewrite seekg_good by lia. cbn [bind].
  rewrite read_full by (cbn; lia). cbn [bind].
  rewrite u32_of_store_4. fold (declared_count f).
  rewrite seekg_end_good. cbn [bind]. rewrite tellg_good. cbn [bind].
  rewrite wrap64_file_size. rewrite seekg_good by lia. cbn [bind].
  rewrite clamp_readable by exact Hsize.
  apply load_loop_good; lia.
Qed.

Lemma record_triangles_nth (f : file) (n : nat) :
  forall (first : Z) (i : nat),
    nth_error (record_triangles f first n) i
    = if (i <? n)%nat then Some (record_triangle f (first + Z.of_nat i)) else None.
Proof.
  induction n as [|n IH]; intros first i; cbn [record_triangles].
  - now destruct i.
  - destruct i as [|i]; cbn [nth_error].
    + now rewrite Z.add_0_r.
    + rewrite IH. change (S i <? S n)%nat with (i <? n)%nat.
      destruct (i <? n)%nat; [|reflexivity].
      do 2 f_equal. lia.
Qed.

(** ** [failbit] stays *)

Lemma failed_not_good (s : ifstream) : failed s = true -> good s = false.
Proof.
  unfold failed, good, goodbit. intros H.
  destruct (rdstate s =? 0) eqn:E; [|reflexivity].
  apply Z.eqb_eq in E. rewrite E in H. discriminate.
Qed.

Lemma failed_lor_failbit (st : Z) : Z.testbit (Z.lor st failbit) 2 = true.
Proof. rewrite Z.lor_spec. apply orb_true_r. Qed.

(** Once it is set, a read stores nothing and leaves it set. *)
Lemma read_keeps_failbit (n : nat) (obj : list byte) (s : ifstream) :
  unmasked s ->
  failed s = true ->
  exists s', read n obj s = Returns (s', obj)
             /\ unmasked s' /\ failed s' = true.
Proof.
  intros Hm Hf. unfold read, sentry. rewrite (failed_not_good s Hf).
  destruct s as [c p st m]. unfold unmasked in *. cbn in Hm. subst m.
  cbn. eexists. split; [reflexivity|]. split; [reflexivity|].
  apply failed_lor_failbit.
Qed.

(** A seek clears [eofbit] only. *)
Lemma seekg_keeps_failbit (pos : Z) (s : ifstream) :
  unmasked s ->
  failed s = true ->
  exists s', seekg pos s = Returns s' /\ unmasked s' /\ failed s' = true.
Proof.
  intros Hm Hf. destruct s as [c p st m]. unfold unmasked, failed in *.
  cbn [rdstate exceptions] in Hm, Hf. subst m.
  assert (Hf' : Z.testbit (Z.land st (Z.lnot eofbit)) 2 = true).
  { rewrite Z.land_spec, Hf. reflexivity. }
  unfold seekg, clear. cbn [exceptions rdstate content gpos].
  change (Z.land goodbit (Z.land st (Z.lnot eofbit)) =? 0) with true.
  cbn [bind]. unfold sentry.
  rewrite (failed_not_good (mk_ifstream c p (Z.land st (Z.lnot eofbit)) goodbit) Hf').
  cbn. eexists. split; [reflexivity|]. split; [reflexivity|].
  apply failed_lor_failbit.
Qed.

(** The next read of a round, on a stream with [failbit] set. *)
Ltac failed_read :=
  match goal with
  | Hm : unmasked ?s, Hf : failed ?s = true |- context [read 4 ?obj ?s] =>
      let s' := fresh "s" in
      let Hm' := fresh "Hm" in
      let Hf' := fresh "Hf" in
      destruct (read_keeps_failbit 4 obj s Hm Hf) as (s' & -> & Hm' & Hf');
      cbn [bind]
  end.

(** So a round that starts with [failbit] set ends with it set, and so
    does the loop: a stream that is good when [load] returns was good in
    every round. *)
Lemma load_round_keeps_failbit (u : Uninit) (i : Z) (s : ifstream)
  (this : StlBinary) :
  unmasked s ->
  failed s = true ->
  exists s' this',
    load_round u i (s, this) = Returns (s', this')
    /\ unmasked s' /\ failed s' = true.
Proof.
  intros Hm Hf. unfold load_round.
  destruct (seekg_keeps_failbit (wrap64 (wrap64 (84 + wrap64 (i * 50)) + 12)) s Hm Hf)
    as (s0 & -> & Hm0 & Hf0).
  cbn [bind]. unfold read_float.
  do 9 failed_read. eauto.
Qed.

Lemma load_loop_keeps_failbit (u : Uninit) (n : nat) :
  forall (i : Z) (s : ifstream) (this : StlBinary),
    unmasked s ->
    failed s = true ->
    exists s' this',
      load_loop u n i (s, this) = Returns (s', this')
      /\ unmasked s' /\ failed s' = true.
Proof.
  induction n as [|n IH]; intros i s this Hm Hf; cbn [load_loop].
  - eauto.
  - destruct (load_round_keeps_failbit u i s this Hm Hf)
      as (s' & this' & -> & Hm' & Hf').
    cbn [bind]. now apply IH.
Qed.

(** A read of a [float] on a stream that is good at [q], or has
    [failbit] set, leaves it good at [q + 4] within the file, or with
    [failbit] set: it cannot reach behind the end of the file and leave
    the stream good. *)
Lemma read_float_within_or_failed (u : Uninit) (i : Z) (k : nat) (f : file)
  (q : Z) (s : ifstream) :
  s = mk_ifstream (Some f) q goodbit goodbit \/ (unmasked s /\ failed s = true) ->
  exists s' v,
    read_float u i k s = Returns (s', v) /\ within_or_failed f (q + 4) s'.
Proof.
  intros [-> | [Hm Hf]].
  - destruct (Z_le_gt_dec (q + 4) (file_size f)) as [Hle | Hgt].
    + rewrite (read_float_good u i k f q (q + 4)) by lia.
      eexists. eexists. split; [reflexivity|]. left. now split.
    + unfold read_float.
      destruct (read_short f q 4 (uninit_float u i k)) as (s' & obj & E & Hst & Hm);
        [lia | cbn; lia |].
      rewrite E. cbn [bind]. eexists. eexists. split; [reflexivity|].
      right. split; [exact Hm|]. unfold failed. now rewrite Hst.
  - unfold read_float.
    destruct (read_keeps_failbit 4 (uninit_float u i k) s Hm Hf) as (s' & -> & Hm' & Hf').
    cbn [bind]. eexists. eexists. split; [reflexivity|]. now right.
Qed.

Lemma within_or_failed_weaken (f : file) (q : Z) (s : ifstream) :
  within_or_failed f q s ->
  s = mk_ifstream (Some f) q goodbit goodbit \/ (unmasked s /\ failed s = true).
Proof. intros [[H _] | H]; [now left | now right]. Qed.

(** The next read of a round, by [read_float_within_or_failed]. *)
Ltac within_read u i f :=
  match goal with
  | H : within_or_failed f ?q ?s |- context [read_float u i ?k ?s] =>
      let s' := fresh "s" in
      let v := fresh "v" in
      let H' := fresh "H" in
      destruct (read_float_within_or_failed u i k f q s (within_or_failed_weaken f q s H))
        as (s' & v & -> & H');
      cbn [bind]
  end.

(** A round that starts on a good stream ends with the stream good behind
    the record's last vertex, which lies within the file, or with
    [failbit] set. *)
Lemma load_round_within_or_failed (u : Uninit) (f : file) (i p : Z)
  (this : StlBinary) :
  0 <= i < 2 ^ 32 ->
  exists s' this',
    load_round u i (mk_ifstream (Some f) p goodbit goodbit, this)
    = Returns (s', this')
    /\ within_or_failed f (84 + 50 * i + 48) s'.
Proof.
  intros Hi. unfold load_round.
  assert (Hpos : wrap64 (wrap64 (84 + wrap64 (i * 50)) + 12) = 84 + 50 * i + 12).
  { unfold wrap64. rewrite (Z.mod_small (i * 50)) by lia.
    rewrite (Z.mod_small (84 + i * 50)) by lia.
    rewrite Z.mod_small by lia. lia. }
  rewrite Hpos. rewrite seekg_good by lia.
  cbn [bind]. set (b := 84 + 50 * i) in *.
  destruct (read_float_within_or_failed u i 0 f (b + 12) _ (or_introl eq_refl))
    as (s1 & v1 & -> & H1).
  cbn [bind]. do 8 within_read u i f.
  eexists. eexists. split; [reflexivity|].
  replace (b + 48) with (b + 12 + 4 + 4 + 4 + 4 + 4 + 4 + 4 + 4 + 4) by lia.
  assumption.
Qed.

(** The loop, started on a good stream: when the stream is good at the
    end, every round has read its record's vertices within the file; a
    read that reaches behind the end of the file leaves [failbit] set to
    the end. *)
Lemma load_loop_good_within (u : Uninit) (f : file) (n : nat) :
  forall (i p : Z) (this this' : StlBinary) (s' : ifstream),
    0 <= i ->
    i + Z.of_nat n <= 2 ^ 32 ->
    load_loop u n i (mk_ifstream (Some f) p goodbit goodbit, this)
    = Returns (s', this') ->
    rdstate s' = goodbit ->
    n = 0%nat \/ 84 + 50 * (i + Z.of_nat n - 1) + 48 <= file_size f.
Proof.
  induction n as [|n IH]; intros i p this this' s' Hi Hn Hloop Hgood;
    [now left | right].
  cbn [load_loop] in Hloop.
  destruct (load_round_within_or_failed u f i p this) as (s1 & this1 & E & H1);
    [lia|].
  rewrite E in Hloop. cbn [bind] in Hloop.
  destruct H1 as [[-> Hq] | [Hm Hf]].
  - destruct (IH _ _ _ _ _ (ltac:(lia) : 0 <= i + 1) ltac:(lia) Hloop Hgood)
      as [-> | Hrest].
    + replace (i + Z.of_nat 1 - 1) with i by lia. exact Hq.
    + replace (i + Z.of_nat (S n) - 1) with (i + 1 + Z.of_nat n - 1) by lia.
      exact Hrest.
  - destruct (load_loop_keeps_failbit u n (i + 1) s1 this1 Hm Hf)
      as (s2 & this2 & E2 & _ & Hf2).
    rewrite E2 in Hloop. injection Hloop as <- _.
    unfold failed in Hf2. rewrite Hgood in Hf2. discriminate.
Qed.

(** C1: on a readable file of at least 84 bytes whose declared count
    exceeds floor((size - 84) / 50), [load] returns (it does not throw)
    with exactly floor((size - 84) / 50) triangles, those of the records
    in the file; the stream is still good when it returns and stands
    within the file, so that no read reached behind the end of the file
    (a read that does sets [failbit], which stays set to the end:
    [read_short], [load_loop_good_within]); [to_model] then yields one
    mesh of that many faces. *)
Theorem load_clamps_to_file_size
  (u : Uninit) (fs : filesystem) (filename : string) (f : file) :
  fs filename = Some f ->
  84 <= file_size f ->
  (file_size f - 84) / 50 < declared_count f ->
  exists (file_handle : ifstream) (ts : list array3),
    load_run u fs filename (mk_StlBinary []) = Returns (file_handle, mk_StlBinary ts)
    /\ load u fs filename (mk_StlBinary []) = Returns (mk_StlBinary ts)
    /\ ts = record_triangles f 0 (Z.to_nat ((file_size f - 84) / 50))
    /\ Z.of_nat (List.length ts) = (file_size f - 84) / 50
    /\ rdstate file_handle = goodbit
    /\ gpos file_handle <= file_size f
    /\ map (fun mesh => Z.of_nat (List.length (faces mesh)))
           (meshes (to_model (mk_StlBinary ts)))
       = [(file_size f - 84) / 50].
Proof.
  intros Hfs Hsize Hcount.
  assert (Hq : 0 <= (file_size f - 84) / 50) by (apply Z.div_pos; lia).
  destruct (load_run_readable u fs filename f (mk_StlBinary []) Hfs Hsize)
    as (p' & Hrun & Hp').
  rewrite Z.min_r in Hrun by lia. cbn [triangles app] in Hrun.
  eexists. eexists. split; [exact Hrun|].
  split; [unfold load; now rewrite Hrun|].
  split; [reflexivity|].
  rewrite record_triangles_length, Z2Nat.id by lia.
  split; [reflexivity|]. split; [reflexivity|]. split; [exact Hp'|].
  rewrite to_model_eq. cbn [meshes map faces triangles].
  now rewrite length_map, record_triangles_length, Z2Nat.id by lia.
Qed.

(** The theorem of C1 at [clamped_file]: one triangle. *)
Lemma load_clamps_to_file_size_witness :
  exists (file_handle : ifstream) (ts : list array3),
    load_run zero_uninit (only "c.stl" clamped_file) "c.stl" (mk_StlBinary [])
    = Returns (file_handle, mk_StlBinary ts)
    /\ load zero_uninit (only "c.stl" clamped_file) "c.stl" (mk_StlBinary [])
       = Returns (mk_StlBinary ts)
    /\ ts = record_triangles clamped_file 0 1
    /\ Z.of_nat (List.length ts) = 1
    /\ rdstate file_handle = goodbit
    /\ gpos file_handle <= 140
    /\ map (fun mesh => Z.of_nat (List.length (faces mesh)))
           (meshes (to_model (mk_StlBinary ts)))
       = [1].
Proof.
  apply (load_clamps_to_file_size zero_uninit (only "c.stl" clamped_file)
           "c.stl" clamped_file).
  - reflexivity.
  - vm_compute. discriminate.
  - vm_compute. reflexivity.
Defined.

(** C8: on a file of exactly 84 + 50 N bytes whose count field declares
    N, [import] returns the model of [to_model] on the state that [load]
    leaves: one mesh of N faces, face [i] holding the three vertices v1,
    v2, v3 of record [i] (the twelve bytes of the normal vector before
    them and the two attribute bytes behind them are not looked at), in
    the order of the file. *)
Theorem import_well_formed
  (u : Uninit) (fs : filesystem) (filename : string) (f : file) :
  fs filename = Some f ->
  file_size f = 84 + 50 * declared_count f ->
  import u fs filename
  = Returns (import_message filename,
             mk_Model
               [mk_Mesh (map face_of
                           (record_triangles f 0 (Z.to_nat (declared_count f))))])
  /\ (exists stl : StlBinary,
        load u fs filename (mk_StlBinary []) = Returns stl
        /\ import u fs filename = Returns (import_message filename, to_model stl))
  /\ List.length (record_triangles f 0 (Z.to_nat (declared_count f)))
     = Z.to_nat (declared_count f)
  /\ forall i : nat,
       nth_error
         (map face_of (record_triangles f 0 (Z.to_nat (declared_count f)))) i
       = if (i <? Z.to_nat (declared_count f))%nat
         then Some (let '(v1, v2, v3) := record_triangle f (Z.of_nat i) in
                    mk_Face [v1; v2; v3])
         else None.
Proof.
  intros Hfs Hsize. pose proof (declared_count_bounds f) as Hc.
  destruct (load_run_readable u fs filename f (mk_StlBinary []) Hfs)
    as (p' & Hrun & _); [lia|].
  replace ((file_size f - 84) / 50) with (declared_count f) in Hrun
    by (rewrite Hsize;
        replace (84 + 50 * declared_count f - 84) with (declared_count f * 50) by lia;
        now rewrite Z.div_mul).
  rewrite Z.min_id in Hrun. cbn [triangles app] in Hrun.
  assert (Hload : load u fs filename (mk_StlBinary [])
                  = Returns (mk_StlBinary
                               (record_triangles f 0 (Z.to_nat (declared_count f)))))
    by (unfold load; now rewrite Hrun).
  assert (Himport : forall stl, load u fs filename (mk_StlBinary []) = Returns stl ->
                    import u fs filename = Returns (import_message filename, to_model stl))
    by (intros stl H; unfold import; now rewrite H).
  split; [rewrite (Himport _ Hload), to_model_eq; reflexivity|].
  split; [eexists; split; [exact Hload | exact (Himport _ Hload)]|].
  split; [apply record_triangles_length|].
  intros i. rewrite nth_error_map, record_triangles_nth.
  destruct (i <? _)%nat; reflexivity.
Qed.

(** The theorem of C8 at [triangle_file]: the three vertices of its one
    record, as they stand in the file. *)
Lemma import_well_formed_witness :
  import zero_uninit (only "triangle.stl" triangle_file) "triangle.stl"
  = Returns (import_message "triangle.stl",
             mk_Model
               [mk_Mesh
                  [mk_Face [mk_Point3 f_zero f_zero f_zero;
                            mk_Point3 f_one f_zero f_zero;
                            mk_Point3 f_zero f_one f_zero]]]).
Proof.
  exact (proj1 (import_well_formed zero_uninit (only "triangle.stl" triangle_file)
                  "triangle.stl" triangle_file eq_refl eq_refl)).
Defined.

(** ** [load] on a stream that failed *)

Lemma load_round_failed (u : Uninit) (i : Z) (c : option file) (p : Z)
  (this : StlBinary) :
  exists triangle : array3,
    load_round u i (mk_ifstream c p failbit goodbit, this)
    = Returns (mk_ifstream c p failbit goodbit,
               mk_StlBinary (push_back (triangles this) triangle)).
Proof.
  unfold load_round. rewrite seekg_failed. cbn [bind].
  unfold read_float. rewrite !read_failed. cbn [bind].
  eexists. reflexivity.
Qed.

(** Every round appends a triangle, made of what the nine variables
    held. *)
Lemma load_loop_failed (u : Uninit) (c : option file) (p : Z) (n : nat) :
  forall (i : Z) (this : StlBinary),
    exists ts : list array3,
      load_loop u n i (mk_ifstream c p failbit goodbit, this)
      = Returns (mk_ifstream c p failbit goodbit,
                 mk_StlBinary (triangles this ++ ts))
      /\ List.length ts = n.
Proof.
  induction n as [|n IH]; intros i this; cbn [load_loop].
  - exists []. rewrite app_nil_r. destruct this. now split.
  - destruct (load_round_failed u i c p this) as (t & ->). cbn [bind].
    destruct (IH (i + 1) (mk_StlBinary (push_back (triangles this) t)))
      as (ts & -> & Hlen).
    exists (t :: ts). cbn [triangles List.length]. unfold push_back.
    rewrite <- app_assoc. split; [reflexivity | now rewrite Hlen].
Qed.

(** A read of which the file holds only a part. *)
Lemma read_partial (f : file) (p : Z) (n : nat) (obj : list byte) :
  Z.max 0 (file_size f - p) < Z.of_nat n ->
  read n obj (mk_ifstream (Some f) p goodbit goodbit)
  = Returns (mk_ifstream (Some f) (p + Z.max 0 (file_size f - p))
               (Z.lor eofbit failbit) goodbit,
             store (file_bytes f p (Z.to_nat (Z.max 0 (file_size f - p)))) obj).
Proof.
  intros H. unfold read, sentry, good, sgetn. cbn.
  replace (Z.max 0 (Z.min (Z.of_nat n) (file_size f - p)))
    with (Z.max 0 (file_size f - p)) by lia.
  rewrite file_bytes_length, Z2Nat.id by lia.
  destruct (Z.max 0 (file_size f - p) =? Z.of_nat n) eqn:E;
    [apply Z.eqb_eq in E; lia | unfold store; now rewrite file_bytes_length].
Qed.

(** The seek after a short read: [eofbit] is cleared, [failbit] stays and
    the seek is skipped. *)
Lemma seekg_end_after_short_read (c : option file) (p off : Z) :
  seekg_end off (mk_ifstream c p (Z.lor eofbit failbit) goodbit)
  = Returns (mk_ifstream c p failbit goodbit).
Proof. reflexivity. Qed.

(** The clamp when [tellg] returned -1: the size is [size_t(-1)] and no
    count exceeds (2^64 - 85) / 50. *)
Lemma clamp_unknown_size (num_triangles : Z) :
  0 <= num_triangles < 2 ^ 32 ->
  clamp (wrap64 (-1)) num_triangles = num_triangles.
Proof.
  intros H. unfold clamp.
  change (wrap64 (wrap64 (-1) - 84) / 50) with 368934881474191030.
  destruct (_ <? _) eqn:E; [apply Z.ltb_lt in E; lia | reflexivity].
Qed.

(** [load] on a readable file of fewer than 84 bytes: the read of the
    count falls short and sets [failbit], so that [tellg] returns -1 and
    nothing is clamped; the loop runs as often as [num_triangles] says,
    whose bytes are those the file had from offset 80 on and, for the
    rest, what the variable held before. *)
Lemma load_run_short (u : Uninit) (fs : filesystem) (filename : string)
  (f : file) (this : StlBinary) :
  fs filename = Some f ->
  file_size f < 84 ->
  exists (file_handle : ifstream) (ts : list array3),
    load_run u fs filename this
    = Returns (file_handle, mk_StlBinary (triangles this ++ ts))
    /\ Z.of_nat (List.length ts)
       = u32_of_bytes
           (store (file_bytes f 80 (Z.to_nat (Z.max 0 (file_size f - 80))))
                  (uninit_num_triangles u)).
Proof.
  intros Hfs Hsize. unfold load_run, open. rewrite Hfs.
  change (clear goodbit (mk_ifstream (Some f) 0 goodbit goodbit))
    with (Returns (mk_ifstream (Some f) 0 goodbit goodbit)).
  cbn [bind]. unfold seekg_beg at 1. rewrite seekg_good by lia. cbn [bind].
  rewrite read_partial by (cbn; lia). cbn [bind].
  rewrite seekg_end_after_short_read. cbn [bind].
  rewrite tellg_failed. cbn [bind].
  unfold seekg_beg. rewrite seekg_failed. cbn [bind].
  set (n := u32_of_bytes _).
  pose proof (u32_of_bytes_bounds
                (store (file_bytes f 80 (Z.to_nat (Z.max 0 (file_size f - 80))))
                       (uninit_num_triangles u))) as Hn.
  fold n in Hn. rewrite clamp_unknown_size by exact Hn.
  destruct (load_loop_failed u (Some f) (80 + Z.max 0 (file_size f - 80))
              (Z.to_nat n) 0 this) as (ts & -> & Hlen).
  exists (mk_ifstream (Some f) (80 + Z.max 0 (file_size f - 80)) failbit goodbit), ts.
  split; [reflexivity|]. rewrite Hlen. lia.
Qed.

(** C2 (the claim fails on the code): on the 83-byte file [load] returns
    at least one triangle whatever the uninitialised variables held, and
    [to_model] a mesh of as many faces; on the 0-byte file it returns as
    many triangles as the uninitialised [num_triangles] says (seven when
    its bytes were 07 00 00 00).  In both [file_size - 84] is computed on
    [size_t(-1)], the value of the failed [tellg], and clamps nothing. *)
Theorem load_short_file (u : Uninit) :
  (file_size short_file = 83
   /\ exists ts : list array3,
        load u (only "short.stl" short_file) "short.stl" (mk_StlBinary [])
        = Returns (mk_StlBinary ts)
        /\ (1 <= List.length ts)%nat
        /\ map (fun mesh => List.length (faces mesh))
               (meshes (to_model (mk_StlBinary ts)))
           = [List.length ts])
  /\ (file_size empty_file = 0
      /\ (exists ts : list array3,
             load u (only "empty.stl" empty_file) "empty.stl" (mk_StlBinary [])
             = Returns (mk_StlBinary ts)
             /\ Z.of_nat (List.length ts) = u32_of_bytes (uninit_num_triangles u))
      /\ exists ts : list array3,
           load (mk_Uninit [x07; x00; x00; x00] (uninit_float u))
             (only "empty.stl" empty_file) "empty.stl" (mk_StlBinary [])
           = Returns (mk_StlBinary ts)
           /\ List.length ts = 7%nat).
Proof.
  split; [|split; [reflexivity|split]].
  - split; [reflexivity|].
    destruct (load_run_short u (only "short.stl" short_file) "short.stl"
                short_file (mk_StlBinary []) eq_refl)
      as (s & ts & Hrun & Hlen); [reflexivity|].
    exists ts. cbn [triangles app] in Hrun.
    split; [unfold load; now rewrite Hrun|].
    split.
    + change (file_bytes short_file 80 (Z.to_nat (Z.max 0 (file_size short_file - 80))))
        with [x01; x00; x00] in Hlen.
      change (u32_of_bytes (store [x01; x00; x00] (uninit_num_triangles u)))
        with (1 + 0 + 0
              + Z.shiftl (byte_val (nth 0 (skipn 3 (uninit_num_triangles u)) x00)) 24)
        in Hlen.
      pose proof (byte_val_bounds (nth 0 (skipn 3 (uninit_num_triangles u)) x00)) as Hb.
      rewrite Z.shiftl_mul_pow2 in Hlen by lia. lia.
    + rewrite to_model_eq. cbn [meshes map faces triangles].
      now rewrite length_map.
  - destruct (load_run_short u (only "empty.stl" empty_file) "empty.stl"
                empty_file (mk_StlBinary []) eq_refl)
      as (s & ts & Hrun & Hlen); [reflexivity|].
    exists ts. cbn [triangles app] in Hrun.
    split; [unfold load; now rewrite Hrun | exact Hlen].
  - destruct (load_run_short (mk_Uninit [x07; x00; x00; x00] (uninit_float u))
                (only "empty.stl" empty_file) "empty.stl"
                empty_file (mk_StlBinary []) eq_refl)
      as (s & ts & Hrun & Hlen); [reflexivity|].
    exists ts. cbn [triangles app] in Hrun.
    split; [unfold load; now rewrite Hrun|].
    change (u32_of_bytes _) with 7 in Hlen. lia.
Qed.

(** ** No stream operation of [load] throws *)

Lemma read_float_returns (u : Uninit) (i : Z) (k : nat) (s : ifstream) :
  unmasked s ->
  exists s' v, read_float u i k s = Returns (s', v) /\ unmasked s'.
Proof.
  intros H. unfold read_float.
  destruct (read_returns 4 (uninit_float u i k) s H) as (s' & obj & -> & H').
  cbn [bind]. eauto.
Qed.

(** The next read of a round, on a stream with no exception mask. *)
Ltac returning_read u i :=
  match goal with
  | H : unmasked ?s |- context [read_float u i ?k ?s] =>
      let s' := fresh "s" in
      let v := fresh "v" in
      let H' := fresh "H" in
      destruct (read_float_returns u i k s H) as (s' & v & -> & H');
      cbn [bind]
  end.

Lemma load_round_returns (u : Uninit) (i : Z) (s : ifstream) (this : StlBinary) :
  unmasked s ->
  exists s' this', load_round u i (s, this) = Returns (s', this') /\ unmasked s'.
Proof.
  intros H. unfold load_round.
  destruct (seekg_returns (wrap64 (wrap64 (84 + wrap64 (i * 50)) + 12)) s H)
    as (s0 & -> & H0).
  cbn [bind]. do 9 returning_read u i. eauto.
Qed.

Lemma load_loop_returns (u : Uninit) (n : nat) :
  forall (i : Z) (s : ifstream) (this : StlBinary),
    unmasked s ->
    exists s' this', load_loop u n i (s, this) = Returns (s', this') /\ unmasked s'.
Proof.
  induction n as [|n IH]; intros i s this H; cbn [load_loop].
  - eauto.
  - destruct (load_round_returns u i s this H) as (s' & this' & -> & H').
    cbn [bind]. apply IH. exact H'.
Qed.



(** * Further properties of the code *)

(** ** The size test *)

(** [is_stl_binary] (lines 31-49): the size test succeeds exactly on a
    path that can be opened, whose file has at least 84 bytes and as many
    as 84 + 50 N taken modulo 2^32, N being the count at offset 80;
    whatever the uninitialised [num_triangles] held. *)
Theorem correct_file_size_iff (u : Uninit) (fs : filesystem) (filename : string) :
  correct_file_size u fs filename = Returns true
  <-> exists f : file,
        fs filename = Some f
        /\ 84 <= file_size f
        /\ file_size f = (84 + 50 * declared_count f) mod 2 ^ 32.
Proof.
  rewrite correct_file_size_eq. unfold size_test, wrap32.
  destruct (fs filename) as [f|]; split.
  - intros H. injection H as H. apply andb_true_iff in H. destruct H as [H1 H2].
    apply Z.leb_le in H1. apply Z.eqb_eq in H2. now exists f.
  - intros (g & Hg & H1 & H2). injection Hg as <-. f_equal.
    apply andb_true_iff. split; [now apply Z.leb_le | now apply Z.eqb_eq].
  - discriminate.
  - intros (g & Hg & _). discriminate.
Qed.

(** [is_stl_binary]: on a file whose declared count keeps 84 + 50 N below
    2^32 the size test is the exact comparison of the size with
    84 + 50 N. *)
Theorem correct_file_size_exact_below_wrap
  (u : Uninit) (fs : filesystem) (filename : string) (f : file) :
  fs filename = Some f ->
  84 + 50 * declared_count f < 2 ^ 32 ->
  correct_file_size u fs filename
  = Returns (file_size f =? 84 + 50 * declared_count f).
Proof.
  intros Hfs Hsmall. pose proof (declared_count_bounds f) as Hc.
  rewrite correct_file_size_eq, Hfs, (size_test_exact f Hsmall).
  unfold size_exact. f_equal.
  destruct (file_size f =? 84 + 50 * declared_count f) eqn:E.
  - apply Z.eqb_eq in E. rewrite andb_true_r. apply Z.leb_le. lia.
  - apply andb_false_r.
Qed.

(** The theorem at [triangle_file] (the test succeeds) and at
    [clamped_file] (it fails). *)
Lemma correct_file_size_exact_below_wrap_witness :
  correct_file_size zero_uninit (only "t.stl" triangle_file) "t.stl" = Returns true
  /\ correct_file_size zero_uninit (only "c.stl" clamped_file) "c.stl" = Returns false.
Proof.
  split.
  - apply (correct_file_size_exact_below_wrap zero_uninit (only "t.stl" triangle_file)
             "t.stl" triangle_file eq_refl).
    vm_compute. reflexivity.
  - apply (correct_file_size_exact_below_wrap zero_uninit (only "c.stl" clamped_file)
             "c.stl" clamped_file eq_refl).
    vm_compute. reflexivity.
Defined.

(** [is_stl_binary] (lines 51-58): the size test decides on which side of
    0.5 the probability falls, whatever the path's extension: at least
    0.9999 when it succeeded, at most 0.0001 when it failed. *)
Theorem is_stl_binary_size_test_decides
  (u : Uninit) (fs : filesystem) (filename : string) :
  exists (correct : bool) (p : spec_float),
    correct_file_size u fs filename = Returns correct
    /\ is_stl_binary u fs filename = Returns p
    /\ F32.ltb f_half p = correct
    /\ F32.ltb p f_half = negb correct
    /\ (if correct then F32.leb f_09999 p else F32.leb p f_00001) = true.
Proof.
  exists (size_test (fs filename)). eexists.
  split; [apply correct_file_size_eq|].
  split; [rewrite is_stl_binary_eq, size_step_four_constants; reflexivity|].
  destruct (extension_test filename), (size_test (fs filename));
    repeat split; reflexivity.
Qed.

(** [is_stl_binary] (lines 33-49): on a path that cannot be opened and on
    a file of fewer than 84 bytes (the empty file among them) the
    probability is [p * 0.0001], [p] from the extension step, whatever
    the file holds and whatever the uninitialised [num_triangles] held. *)
Theorem is_stl_binary_unreadable_or_short
  (u : Uninit) (fs : filesystem) (filename : string) :
  match fs filename with
  | Some f => file_size f < 84
  | None => True
  end ->
  is_stl_binary u fs filename = Returns (lowered (extension_step filename)).
Proof.
  intros H. rewrite is_stl_binary_eq. unfold size_test.
  destruct (fs filename) as [f|]; [|reflexivity].
  replace (84 <=? file_size f) with false by (symmetry; apply Z.leb_gt; lia).
  reflexivity.
Qed.

(** The theorem at the empty file and at a path that names no file. *)
Lemma is_stl_binary_unreadable_or_short_witness :
  is_stl_binary zero_uninit (only "empty.stl" empty_file) "empty.stl"
  = Returns (lowered f_001)
  /\ is_stl_binary zero_uninit no_files "mesh.obj" = Returns (lowered f_099).
Proof.
  split.
  - apply (is_stl_binary_unreadable_or_short zero_uninit
             (only "empty.stl" empty_file) "empty.stl").
    vm_compute. reflexivity.
  - apply (is_stl_binary_unreadable_or_short zero_uninit no_files "mesh.obj").
    exact I.
Defined.

(** ** The extension test *)

(** [find_last_of] returns what it was given for "none" or an index
    within the string. *)
Lemma find_last_of_from_range (s chars : string) :
  forall i found,
    find_last_of_from s chars i found = found
    \/ i <= find_last_of_from s chars i found < i + string_length s.
Proof.
  unfold string_length.
  induction s as [|c s IH]; intros i found; cbn [find_last_of_from String.length].
  - now left.
  - destruct (IH (i + 1) (if occurs c chars then i else found)) as [-> | H].
    + destruct (occurs c chars); [right; lia | now left].
    + right. lia.
Qed.

(** [is_stl_binary] (line 25): on a path of at least four characters the
    extension test passes exactly when the fourth character from the end
    is one of '.', 's', 't', 'l' and none of the last three is. *)
Theorem extension_test_last_four (pre : string) (c4 c3 c2 c1 : ascii) :
  string_length pre + 4 < 2 ^ 64 ->
  extension_test (pre ++ String c4 (String c3 (String c2 (String c1 EmptyString))))
  = occurs c4 ".stl"
    && negb (occurs c3 ".stl" || occurs c2 ".stl" || occurs c1 ".stl").
Proof.
  intros Hlen. unfold extension_test, find_last_of.
  rewrite find_last_of_from_app, string_length_app.
  cbn [find_last_of_from].
  assert (Hp : 0 <= string_length pre) by (unfold string_length; lia).
  replace (string_length (String c4 (String c3 (String c2 (String c1 EmptyString)))))
    with 4 by reflexivity.
  replace (wrap64 (string_length pre + 4 - 4)) with (string_length pre)
    by (unfold wrap64; rewrite Z.mod_small by lia; lia).
  pose proof (find_last_of_from_range pre ".stl" 0 npos) as Hr.
  destruct (occurs c1 ".stl"), (occurs c2 ".stl"), (occurs c3 ".stl"),
    (occurs c4 ".stl"); cbn [andb orb negb];
    try (apply Z.eqb_neq; unfold npos in *; lia);
    apply Z.eqb_eq; lia.
Qed.

(** The theorem at "mesh.stl" (the final 'l' fails the test) and at
    "mesh.obj" (it passes). *)
Lemma extension_test_last_four_witness :
  extension_test "mesh.stl" = false /\ extension_test "mesh.obj" = true.
Proof.
  split.
  - apply (extension_test_last_four "mesh" "." "s" "t" "l"). vm_compute. reflexivity.
  - apply (extension_test_last_four "mesh" "." "o" "b" "j"). vm_compute. reflexivity.
Defined.

(** [is_stl_binary] (line 25): on a path of fewer than four characters
    [length - 4] wraps around; the test passes exactly on a path of three
    characters none of which is '.', 's', 't' or 'l', where [npos] meets
    the wrapped value. *)
Theorem extension_test_short_path (filename : string) :
  string_length filename < 4 ->
  extension_test filename
  = (string_length filename =? 3) && negb (any_occurs filename ".stl").
Proof.
  intros Hlen.
  destruct filename as [|a [|b [|c [|d rest]]]].
  - reflexivity.
  - unfold extension_test, find_last_of. cbn [find_last_of_from any_occurs].
    destruct (occurs a ".stl"); reflexivity.
  - unfold extension_test, find_last_of. cbn [find_last_of_from any_occurs].
    destruct (occurs a ".stl"), (occurs b ".stl"); reflexivity.
  - unfold extension_test, find_last_of. cbn [find_last_of_from any_occurs].
    destruct (occurs a ".stl"), (occurs b ".stl"), (occurs c ".stl"); reflexivity.
  - exfalso. unfold string_length in Hlen. cbn [String.length] in Hlen. lia.
Qed.

(** The theorem at "abc" (the test passes) and at "a.b" (it fails). *)
Lemma extension_test_short_path_witness :
  extension_test "abc" = true /\ extension_test "a.b" = false.
Proof.
  split.
  - apply (extension_test_short_path "abc"). vm_compute. reflexivity.
  - apply (extension_test_short_path "a.b"). vm_compute. reflexivity.
Defined.

(** ** The clamp *)

(** [load] (lines 79-81): for a size of at least 84 the clamp never raises
    the count, and the records it leaves room for end within the file. *)
Theorem clamp_fits_file (file_size num_triangles : Z) :
  84 <= file_size < 2 ^ 64 ->
  0 <= num_triangles < 2 ^ 32 ->
  0 <= clamp file_size num_triangles <= num_triangles
  /\ 84 + 50 * clamp file_size num_triangles <= file_size
  /\ clamp file_size num_triangles
     = Z.min num_triangles ((file_size - 84) / 50).
Proof.
  intros Hs Hn. unfold clamp, wrap64.
  rewrite (Z.mod_small (file_size - 84)) by lia.
  assert (Hq : 0 <= (file_size - 84) / 50) by (apply Z.div_pos; lia).
  assert (Hr : 50 * ((file_size - 84) / 50) <= file_size - 84)
    by (apply Z.mul_div_le; lia).
  destruct (_ <? _) eqn:E.
  - apply Z.ltb_lt in E. unfold wrap32. rewrite Z.mod_small by lia. lia.
  - apply Z.ltb_ge in E. lia.
Qed.

Lemma clamp_fits_file_witness :
  0 <= clamp 140 5 <= 5 /\ 84 + 50 * clamp 140 5 <= 140
  /\ clamp 140 5 = Z.min 5 ((140 - 84) / 50).
Proof. apply (clamp_fits_file 140 5); lia. Defined.


(** ** [load] on every input *)

(** A round appends one triangle, whatever the stream's state. *)
Lemma load_round_appends (u : Uninit) (i : Z) (s : ifstream) (this : StlBinary) :
  unmasked s ->
  exists s' triangle,
    load_round u i (s, this)
    = Returns (s', mk_StlBinary (push_back (triangles this) triangle))
    /\ unmasked s'.
Proof.
  intros H. unfold load_round.
  destruct (seekg_returns (wrap64 (wrap64 (84 + wrap64 (i * 50)) + 12)) s H)
    as (s0 & -> & H0).
  cbn [bind]. do 9 returning_read u i.
  eexists. eexists. split; [reflexivity | assumption].
Qed.

Lemma load_loop_appends (u : Uninit) (n : nat) :
  forall (i : Z) (s : ifstream) (this : StlBinary),
    unmasked s ->
    exists s' ts,
      load_loop u n i (s, this) = Returns (s', mk_StlBinary (triangles this ++ ts))
      /\ List.length ts = n.
Proof.
  induction n as [|n IH]; intros i s this H; cbn [load_loop].
  - exists s, []. rewrite app_nil_r. destruct this. now split.
  - destruct (load_round_appends u i s this H) as (s1 & t & -> & H1).
    cbn [bind].
    destruct (IH (i + 1) s1 (mk_StlBinary (push_back (triangles this) t)) H1)
      as (s' & ts & -> & Hlen).
    exists s', (t :: ts). cbn [triangles List.length]. unfold push_back.
    rewrite <- app_assoc. split; [reflexivity | now rewrite Hlen].
Qed.

Lemma load_run_appends (u : Uninit) (fs : filesystem) (filename : string)
  (this : StlBinary) :
  exists s' ts,
    load_run u fs filename this = Returns (s', mk_StlBinary (triangles this ++ ts)).
Proof.
  unfold load_run.
  destruct (open_returns fs filename) as (s0 & -> & H0). cbn [bind].
  destruct (seekg_returns 80 s0 H0) as (s1 & E1 & H1).
  unfold seekg_beg at 1. rewrite E1. cbn [bind].
  destruct (read_returns 4 (uninit_num_triangles u) s1 H1) as (s2 & obj & -> & H2).
  cbn [bind].
  destruct (seekg_end_returns 0 s2 H2) as (s3 & -> & H3). cbn [bind].
  destruct (tellg_returns s3 H3) as (s4 & p & -> & H4). cbn [bind].
  destruct (seekg_returns 84 s4 H4) as (s5 & E5 & H5).
  unfold seekg_beg. rewrite E5. cbn [bind].
  destruct (load_loop_appends u (Z.to_nat (clamp (wrap64 p) (u32_of_bytes obj)))
              0 s5 this H5) as (s6 & ts & -> & _).
  eauto.
Qed.

(** [load] (lines 84-103): whatever the paths name, when two calls of
    [load] on the same object return, the triangles the object held
    before stand first and unchanged, those the first call appended
    follow, then those of the second; [load] neither clears the list nor
    changes an element. *)
Theorem load_keeps_triangles
  (u u' : Uninit) (fs fs' : filesystem) (filename filename' : string)
  (this stl2 : StlBinary) :
  (stl <- load u fs filename this ;; load u' fs' filename' stl) = Returns stl2 ->
  exists (stl1 : StlBinary) (ts ts' : list array3),
    load u fs filename this = Returns stl1
    /\ triangles stl1 = triangles this ++ ts
    /\ triangles stl2 = triangles this ++ ts ++ ts'.
Proof.
  intros H.
  destruct (load_run_appends u fs filename this) as (s1 & ts & H1).
  destruct (load_run_appends u' fs' filename'
              (mk_StlBinary (triangles this ++ ts))) as (s2 & ts' & H2).
  unfold load in *. rewrite H1 in *. cbn [bind] in *.
  rewrite H2 in H. cbn [bind triangles] in H. injection H as <-.
  eexists. exists ts, ts'. split; [reflexivity|]. cbn [triangles].
  split; [reflexivity | now rewrite <- app_assoc].
Qed.

(** The theorem at [triangle_file], loaded twice into an object that
    held one triangle of ones. *)
Lemma load_keeps_triangles_witness :
  (stl <- load zero_uninit (only "t.stl" triangle_file) "t.stl"
            (mk_StlBinary [ones_triangle]) ;;
   load zero_uninit (only "t.stl" triangle_file) "t.stl" stl)
  = Returns (mk_StlBinary [ones_triangle; record_triangle triangle_file 0;
                           record_triangle triangle_file 0])
  /\ exists (stl1 : StlBinary) (ts ts' : list array3),
    load zero_uninit (only "t.stl" triangle_file) "t.stl"
      (mk_StlBinary [ones_triangle])
    = Returns stl1
    /\ triangles stl1 = [ones_triangle] ++ ts
    /\ [ones_triangle; record_triangle triangle_file 0;
        record_triangle triangle_file 0]
       = [ones_triangle] ++ ts ++ ts'.
Proof.
  split; [reflexivity|].
  exact (load_keeps_triangles zero_uninit zero_uninit
           (only "t.stl" triangle_file) (only "t.stl" triangle_file)
           "t.stl" "t.stl" (mk_StlBinary [ones_triangle])
           (mk_StlBinary [ones_triangle; record_triangle triangle_file 0;
                          record_triangle triangle_file 0])
           eq_refl).
Defined.

Lemma face_of_three_vertices (ts : list array3) :
  Forall (fun face => List.length (vertices face) = 3%nat) (map face_of ts).
Proof.
  apply Forall_forall. intros face Hin.
  apply in_map_iff in Hin. destruct Hin as (t & <- & _). reflexivity.
Qed.

(** [import] (lines 61-67): whatever the path names, when [import]
    returns it has written the one line naming the path, and the model
    has exactly one mesh, every face of which has exactly three
    vertices. *)
Theorem import_one_mesh_of_triangles
  (u : Uninit) (fs : filesystem) (filename : string)
  (out : string) (model : Model) :
  import u fs filename = Returns (out, model) ->
  out = import_message filename
  /\ exists fcs : list Face,
       model = mk_Model [mk_Mesh fcs]
       /\ Forall (fun face => List.length (vertices face) = 3%nat) fcs.
Proof.
  intros Himport.
  destruct (load_run_appends u fs filename (mk_StlBinary [])) as (s & ts & H).
  cbn [triangles app] in H.
  unfold import, load in Himport. rewrite H in Himport. cbn [bind] in Himport.
  rewrite to_model_eq in Himport. injection Himport as <- <-.
  split; [reflexivity|].
  exists (map face_of ts). split; [reflexivity | apply face_of_three_vertices].
Qed.

(** The theorem at [triangle_file]. *)
Lemma import_one_mesh_of_triangles_witness :
  import zero_uninit (only "t.stl" triangle_file) "t.stl"
  = Returns (import_message "t.stl",
             mk_Model [mk_Mesh [face_of (record_triangle triangle_file 0)]])
  /\ import_message "t.stl" = import_message "t.stl"
  /\ exists fcs : list Face,
       mk_Model [mk_Mesh [face_of (record_triangle triangle_file 0)]]
       = mk_Model [mk_Mesh fcs]
       /\ Forall (fun face => List.length (vertices face) = 3%nat) fcs.
Proof.
  split; [reflexivity|].
  exact (import_one_mesh_of_triangles zero_uninit (only "t.stl" triangle_file)
           "t.stl" (import_message "t.stl")
           (mk_Model [mk_Mesh [face_of (record_triangle triangle_file 0)]])
           eq_refl).
Defined.

(** ** [load] on a file of at least 84 bytes *)

(** [load] (lines 69-104): on a readable file of at least 84 bytes [load]
    appends the first [fitting_count] records of the file and nothing
    else: never more than the header declares, never a record that ends
    behind the end of the file, and no byte of an uninitialised variable;
    bytes behind the last record read are not looked at, and the stream
    is good at the end. *)
Theorem load_reads_what_fits
  (u : Uninit) (fs : filesystem) (filename : string) (f : file)
  (this : StlBinary) :
  fs filename = Some f ->
  84 <= file_size f ->
  (exists file_handle : ifstream,
      load_run u fs filename this
      = Returns (file_handle,
                 mk_StlBinary
                   (triangles this
                    ++ record_triangles f 0 (Z.to_nat (fitting_count f))))
      /\ rdstate file_handle = goodbit)
  /\ load u fs filename this
     = Returns (mk_StlBinary
                  (triangles this
                   ++ record_triangles f 0 (Z.to_nat (fitting_count f))))
  /\ 0 <= fitting_count f <= declared_count f
  /\ 84 + 50 * fitting_count f <= file_size f.
Proof.
  intros Hfs Hsize. pose proof (declared_count_bounds f) as Hc.
  assert (Hq : 0 <= (file_size f - 84) / 50) by (apply Z.div_pos; lia).
  assert (Hr : 50 * ((file_size f - 84) / 50) <= file_size f - 84)
    by (apply Z.mul_div_le; lia).
  destruct (load_run_readable u fs filename f this Hfs Hsize) as (p' & Hrun & _).
  fold (fitting_count f) in Hrun.
  split; [eexists; split; [exact Hrun | reflexivity]|].
  split; [unfold load; now rewrite Hrun|].
  unfold fitting_count. lia.
Qed.

(** The theorem at [padded_file]: one triangle is declared and read, the
    66 bytes FF behind its record are left alone. *)
Lemma load_reads_what_fits_witness :
  load zero_uninit (only "p.stl" padded_file) "p.stl" (mk_StlBinary [])
  = Returns (mk_StlBinary
               [(mk_Point3 f_zero f_zero f_zero,
                 mk_Point3 f_zero f_zero f_zero,
                 mk_Point3 f_zero f_zero f_zero)]).
Proof.
  refine (proj1 (proj2 (load_reads_what_fits zero_uninit (only "p.stl" padded_file)
                          "p.stl" padded_file (mk_StlBinary []) eq_refl _))).
  vm_compute. discriminate.
Defined.

Lemma file_bytes_nth (f : file) (n : nat) :
  forall (pos : Z) (i : nat),
    (i < n)%nat -> nth i (file_bytes f pos n) x00 = byte_at f (pos + Z.of_nat i).
Proof.
  induction n as [|n IH]; intros pos i Hi; [lia|].
  cbn [file_bytes]. destruct i as [|i]; cbn [nth].
  - now rewrite Z.add_0_r.
  - rewrite IH by lia. f_equal. lia.
Qed.

Lemma file_bytes_eq_bytes (f g : file) (pos : Z) (n : nat) :
  file_bytes f pos n = file_bytes g pos n ->
  forall i, pos <= i < pos + Z.of_nat n -> byte_at f i = byte_at g i.
Proof.
  intros H i Hi.
  replace i with (pos + Z.of_nat (Z.to_nat (i - pos))) by lia.
  rewrite <- (file_bytes_nth f n), <- (file_bytes_nth g n) by lia.
  now rewrite H.
Qed.

Lemma float_at_ext (f g : file) (pos : Z) :
  (forall i, pos <= i < pos + 4 -> byte_at f i = byte_at g i) ->
  float_at f pos = float_at g pos.
Proof.
  intros H. unfold float_at. now rewrite (file_bytes_ext f g 4 pos).
Qed.

(** The triangle of a record is read off its 36 vertex bytes. *)
Lemma record_triangle_ext (f g : file) (k : Z) :
  vertex_block f k = vertex_block g k ->
  record_triangle f k = record_triangle g k.
Proof.
  intros H. unfold vertex_block in H.
  pose proof (file_bytes_eq_bytes f g _ _ H) as Hb.
  change (Z.of_nat 36) with 36 in Hb.
  unfold record_triangle. cbv zeta.
  repeat match goal with
         | |- context [float_at f ?pos] =>
             rewrite (float_at_ext f g pos) by (intros i Hi; apply Hb; lia)
         end.
  reflexivity.
Qed.

Lemma record_triangles_ext (f g : file) (n : nat) :
  forall first,
    (forall k, first <= k < first + Z.of_nat n -> vertex_block f k = vertex_block g k) ->
    record_triangles f first n = record_triangles g first n.
Proof.
  induction n as [|n IH]; intros first H; cbn [record_triangles]; [reflexivity|].
  rewrite (record_triangle_ext f g first) by (apply H; lia).
  f_equal. apply IH. intros k Hk. apply H. lia.
Qed.

(** [load] (lines 73-103): of a readable file of at least 84 bytes [load]
    and [import] look at the size, the four bytes of the count and the 36
    vertex bytes of each record read, and at nothing else: two files that
    agree on these (whatever their headers, normal vectors, attribute
    bytes and trailing bytes, under whatever names, and whatever the
    uninitialised variables held) load the same triangles and import the
    same model. *)
Theorem load_looks_at_count_and_vertices
  (u u' : Uninit) (fs fs' : filesystem) (filename filename' : string)
  (f g : file) (this : StlBinary) :
  fs filename = Some f ->
  fs' filename' = Some g ->
  84 <= file_size f ->
  file_size f = file_size g ->
  file_bytes f 80 4 = file_bytes g 80 4 ->
  (forall k, 0 <= k < fitting_count f -> vertex_block f k = vertex_block g k) ->
  load u fs filename this = load u' fs' filename' this
  /\ exists model : Model,
       import u fs filename = Returns (import_message filename, model)
       /\ import u' fs' filename' = Returns (import_message filename', model).
Proof.
  intros Hf Hg Hsize Hsame Hcount Hblocks.
  assert (Hfit : fitting_count g = fitting_count f)
    by (unfold fitting_count, declared_count; now rewrite Hcount, Hsame).
  assert (Hq : 0 <= fitting_count f).
  { pose proof (declared_count_bounds f).
    assert (0 <= (file_size f - 84) / 50) by (apply Z.div_pos; lia).
    unfold fitting_count. lia. }
  assert (Hrec : record_triangles g 0 (Z.to_nat (fitting_count f))
                 = record_triangles f 0 (Z.to_nat (fitting_count f))).
  { symmetry. apply record_triangles_ext. intros k Hk. apply Hblocks. lia. }
  assert (Hload : forall that,
             load u fs filename that = load u' fs' filename' that
             /\ load u fs filename that
                = Returns (mk_StlBinary
                             (triangles that
                              ++ record_triangles f 0 (Z.to_nat (fitting_count f))))).
  { intros that.
    destruct (load_run_readable u fs filename f that Hf Hsize) as (p1 & H1 & _).
    destruct (load_run_readable u' fs' filename' g that Hg) as (p2 & H2 & _); [lia|].
    fold (fitting_count f) in H1. fold (fitting_count g) in H2.
    rewrite Hfit, Hrec in H2. unfold load. now rewrite H1, H2. }
  split; [apply Hload|].
  destruct (Hload (mk_StlBinary [])) as [Heq Hval].
  eexists. unfold import. rewrite <- Heq, Hval. cbn [bind]. now split.
Qed.

(** The theorem at [triangle_file] and [triangle_file_bare], which differ
    in the header, the normal vector and the attribute bytes. *)
Lemma load_looks_at_count_and_vertices_witness :
  load zero_uninit (only "a.stl" triangle_file) "a.stl" (mk_StlBinary [])
  = load (mk_Uninit [xff] (fun _ _ => [xff])) (only "b.stl" triangle_file_bare)
      "b.stl" (mk_StlBinary []).
Proof.
  refine (proj1 (load_looks_at_count_and_vertices zero_uninit _
                   (only "a.stl" triangle_file) (only "b.stl" triangle_file_bare)
                   "a.stl" "b.stl" triangle_file triangle_file_bare (mk_StlBinary [])
                   eq_refl eq_refl _ eq_refl eq_refl _)).
  - vm_compute. discriminate.
  - intros k Hk. change (fitting_count triangle_file) with 1 in Hk.
    assert (Hk0 : k = 0) by lia. rewrite Hk0. reflexivity.
Defined.

(** ** The sniffer and the decoder together *)

(** [is_stl_binary] and [import]: a file on which the size test succeeds,
    with a count that keeps 84 + 50 N below 2^32, is decoded in full:
    [import] returns one mesh with exactly the N declared faces, those of
    the file's records in their order. *)
Theorem accepted_file_is_decoded
  (u u' : Uninit) (fs : filesystem) (filename : string) (f : file) :
  fs filename = Some f ->
  correct_file_size u fs filename = Returns true ->
  84 + 50 * declared_count f < 2 ^ 32 ->
  import u' fs filename
  = Returns (import_message filename,
             mk_Model
               [mk_Mesh (map face_of
                           (record_triangles f 0 (Z.to_nat (declared_count f))))])
  /\ List.length (map face_of (record_triangles f 0 (Z.to_nat (declared_count f))))
     = Z.to_nat (declared_count f).
Proof.
  intros Hfs Htest Hsmall. pose proof (declared_count_bounds f) as Hc.
  rewrite correct_file_size_eq, Hfs, (size_test_exact f Hsmall) in Htest.
  injection Htest as Htest. unfold size_exact in Htest.
  apply andb_true_iff in Htest. destruct Htest as [H84 Hexact].
  apply Z.leb_le in H84. apply Z.eqb_eq in Hexact.
  destruct (load_run_readable u' fs filename f (mk_StlBinary []) Hfs H84)
    as (p' & Hrun & _).
  replace ((file_size f - 84) / 50) with (declared_count f) in Hrun
    by (rewrite Hexact;
        replace (84 + 50 * declared_count f - 84) with (declared_count f * 50) by lia;
        now rewrite Z.div_mul).
  rewrite Z.min_id in Hrun. cbn [triangles app] in Hrun.
  split; [|now rewrite length_map, record_triangles_length].
  unfold import, load. rewrite Hrun. cbn [bind]. now rewrite to_model_eq.
Qed.

(** The theorem at [triangle_file]. *)
Lemma accepted_file_is_decoded_witness :
  import zero_uninit (only "triangle.stl" triangle_file) "triangle.stl"
  = Returns (import_message "triangle.stl",
             mk_Model
               [mk_Mesh (map face_of (record_triangles triangle_file 0 1))]).
Proof.
  refine (proj1 (accepted_file_is_decoded zero_uninit zero_uninit
                   (only "triangle.stl" triangle_file) "triangle.stl" triangle_file
                   eq_refl eq_refl _)).
  vm_compute. reflexivity.
Defined.

(** ** [load] on a stream that failed: the triangles *)

Lemma load_round_failed_uninit (u : Uninit) (i : Z) (c : option file) (p : Z)
  (this : StlBinary) :
  load_round u i (mk_ifstream c p failbit goodbit, this)
  = Returns (mk_ifstream c p failbit goodbit,
             mk_StlBinary (push_back (triangles this) (uninit_triangle u i))).
Proof.
  unfold load_round. rewrite seekg_failed. cbn [bind].
  unfold read_float. rewrite !read_failed. cbn [bind]. reflexivity.
Qed.

Lemma load_loop_failed_uninit (u : Uninit) (c : option file) (p : Z) (n : nat) :
  forall (i : Z) (this : StlBinary),
    load_loop u n i (mk_ifstream c p failbit goodbit, this)
    = Returns (mk_ifstream c p failbit goodbit,
               mk_StlBinary (triangles this ++ uninit_triangles u i n)).
Proof.
  induction n as [|n IH]; intros i this; cbn [load_loop uninit_triangles].
  - rewrite app_nil_r. now destruct this.
  - rewrite load_round_failed_uninit. cbn [bind]. rewrite IH.
    cbn [triangles]. unfold push_back. now rewrite <- app_assoc.
Qed.

(** [load] (lines 69-104): on a readable file of fewer than 84 bytes,
    when [load] returns (the allocation of line 82 did not throw), no
    triangle has come from the file.  The count is made of the bytes the
    file has from offset 80 on and, behind them, of what the
    uninitialised [num_triangles] held; it is not clamped, and every
    triangle appended is made of what the nine uninitialised [float]s
    held. *)
Theorem load_below_84_is_uninitialised
  (u : Uninit) (fs : filesystem) (filename : string) (f : file)
  (this stl : StlBinary) :
  fs filename = Some f ->
  file_size f < 84 ->
  load u fs filename this = Returns stl ->
  stl = mk_StlBinary
          (triangles this
           ++ uninit_triangles u 0
                (Z.to_nat
                   (u32_of_bytes
                      (store (file_bytes f 80 (Z.to_nat (Z.max 0 (file_size f - 80))))
                             (uninit_num_triangles u))))).
Proof.
  intros Hfs Hsize Hload. unfold load, load_run, open in Hload.
  rewrite Hfs in Hload.
  change (clear goodbit (mk_ifstream (Some f) 0 goodbit goodbit))
    with (Returns (mk_ifstream (Some f) 0 goodbit goodbit)) in Hload.
  cbn [bind] in Hload. unfold seekg_beg at 1 in Hload.
  rewrite seekg_good in Hload by lia. cbn [bind] in Hload.
  rewrite read_partial in Hload by (cbn; lia). cbn [bind] in Hload.
  rewrite seekg_end_after_short_read in Hload. cbn [bind] in Hload.
  rewrite tellg_failed in Hload. cbn [bind] in Hload.
  unfold seekg_beg in Hload. rewrite seekg_failed in Hload. cbn [bind] in Hload.
  rewrite clamp_unknown_size in Hload by apply u32_of_bytes_bounds.
  rewrite load_loop_failed_uninit in Hload. cbn [bind] in Hload.
  now injection Hload as <-.
Qed.

(** The theorem at [short_file], the variables having held zeros: one
    triangle, of zeros. *)
Lemma load_below_84_is_uninitialised_witness :
  load zero_uninit (only "short.stl" short_file) "short.stl" (mk_StlBinary [])
  = Returns (mk_StlBinary [(mk_Point3 f_zero f_zero f_zero,
                            mk_Point3 f_zero f_zero f_zero,
                            mk_Point3 f_zero f_zero f_zero)])
  /\ mk_StlBinary [(mk_Point3 f_zero f_zero f_zero,
                    mk_Point3 f_zero f_zero f_zero,
                    mk_Point3 f_zero f_zero f_zero)]
     = mk_StlBinary ([] ++ uninit_triangles zero_uninit 0 1).
Proof.
  split; [reflexivity|].
  refine (load_below_84_is_uninitialised zero_uninit (only "short.stl" short_file)
            "short.stl" short_file (mk_StlBinary []) _ eq_refl _ eq_refl).
  vm_compute. reflexivity.
Defined.

(** [load] (lines 69-104): on a path that cannot be opened nothing is
    read; when [load] returns (the allocation of line 82 did not throw)
    it has appended as many triangles as the uninitialised
    [num_triangles] held, each made of what the nine uninitialised
    [float]s held. *)
Theorem load_unopened_is_uninitialised
  (u : Uninit) (fs : filesystem) (filename : string) (this stl : StlBinary) :
  fs filename = None ->
  load u fs filename this = Returns stl ->
  stl = mk_StlBinary
          (triangles this
           ++ uninit_triangles u 0
                (Z.to_nat (u32_of_bytes (uninit_num_triangles u)))).
Proof.
  intros Hfs Hload. unfold load, load_run, open in Hload. rewrite Hfs in Hload.
  change (setstate failbit (mk_ifstream None 0 goodbit goodbit))
    with (Returns (mk_ifstream None 0 failbit goodbit)) in Hload.
  cbn [bind] in Hload. unfold seekg_beg in Hload.
  rewrite seekg_failed in Hload. cbn [bind] in Hload.
  rewrite read_failed in Hload. cbn [bind] in Hload.
  change (seekg_end 0 (mk_ifstream None 0 failbit goodbit))
    with (Returns (mk_ifstream None 0 failbit goodbit)) in Hload.
  cbn [bind] in Hload. rewrite tellg_failed in Hload. cbn [bind] in Hload.
  rewrite seekg_failed in Hload. cbn [bind] in Hload.
  rewrite clamp_unknown_size in Hload by apply u32_of_bytes_bounds.
  rewrite load_loop_failed_uninit in Hload. cbn [bind] in Hload.
  now injection Hload as <-.
Qed.

(** The theorem at a path that names no file, [num_triangles] having held
    02 00 00 00 and the [float]s 00 00 80 3F: two triangles of ones. *)
Lemma load_unopened_is_uninitialised_witness :
  load (mk_Uninit [x02] (fun _ _ => [x00; x00; x80; x3f])) no_files "missing.stl"
    (mk_StlBinary [])
  = Returns (mk_StlBinary [ones_triangle; ones_triangle])
  /\ mk_StlBinary [ones_triangle; ones_triangle]
     = mk_StlBinary
         ([] ++ uninit_triangles
                  (mk_Uninit [x02] (fun _ _ => [x00; x00; x80; x3f])) 0 2).
Proof.
  split; [reflexivity|].
  exact (load_unopened_is_uninitialised
           (mk_Uninit [x02] (fun _ _ => [x00; x00; x80; x3f])) no_files "missing.stl"
           (mk_StlBinary []) (mk_StlBinary [ones_triangle; ones_triangle])
           eq_refl eq_refl).
Defined.

(** ** [to_model] over a list in two parts *)

(** [to_model] (lines 106-120): the faces of a triangle list in two parts
    are the faces of the first part followed by those of the second, so
    that the model after two loads is that of the first with the faces
    of the second appended; the model holds three vertices for every
    triangle, none merged and none left out. *)
Theorem to_model_app (ts1 ts2 : list array3) :
  exists fcs1 fcs2 : list Face,
    to_model (mk_StlBinary ts1) = mk_Model [mk_Mesh fcs1]
    /\ to_model (mk_StlBinary ts2) = mk_Model [mk_Mesh fcs2]
    /\ to_model (mk_StlBinary (ts1 ++ ts2)) = mk_Model [mk_Mesh (fcs1 ++ fcs2)]
    /\ List.length (List.concat (map vertices (fcs1 ++ fcs2)))
       = (3 * (List.length ts1 + List.length ts2))%nat.
Proof.
  exists (map face_of ts1), (map face_of ts2).
  rewrite !to_model_eq. cbn [triangles].
  split; [reflexivity|]. split; [reflexivity|].
  split; [now rewrite map_app|].
  rewrite <- map_app, <- length_app.
  induction (ts1 ++ ts2) as [|t ts IH]; [reflexivity|].
  cbn [map List.concat]. rewrite length_app, IH. cbn [face_of vertices List.length]. lia.
Qed.

(** ** The probability of a file below the wrap-around *)

(** [is_stl_binary] (lines 17-59): for a readable file whose count keeps
    84 + 50 N below 2^32, the probability is at least 0.9999 when the
    file has exactly 84 + 50 N bytes and at most 0.0001 when it has not,
    whatever the path's extension. *)
Theorem is_stl_binary_below_wrap
  (u : Uninit) (fs : filesystem) (filename : string) (f : file) :
  fs filename = Some f ->
  84 + 50 * declared_count f < 2 ^ 32 ->
  exists p : spec_float,
    is_stl_binary u fs filename = Returns p
    /\ (if file_size f =? 84 + 50 * declared_count f
        then F32.leb f_09999 p
        else F32.leb p f_00001) = true.
Proof.
  intros Hfs Hsmall. pose proof (declared_count_bounds f) as Hc.
  rewrite is_stl_binary_eq, size_step_four_constants, Hfs,
    (size_test_exact f Hsmall).
  eexists. split; [reflexivity|]. unfold size_exact.
  destruct (file_size f =? 84 + 50 * declared_count f) eqn:E.
  - apply Z.eqb_eq in E.
    replace (84 <=? file_size f) with true by (symmetry; apply Z.leb_le; lia).
    now destruct (extension_test filename).
  - rewrite andb_false_r. now destruct (extension_test filename).
Qed.

(** The theorem at [triangle_file] under a name without extension, and at
    [clamped_file] under the name "c.stl". *)
Lemma is_stl_binary_below_wrap_witness :
  (exists p, is_stl_binary zero_uninit (only "triangle" triangle_file) "triangle"
             = Returns p
             /\ F32.leb f_09999 p = true)
  /\ (exists p, is_stl_binary zero_uninit (only "c.stl" clamped_file) "c.stl"
                = Returns p
                /\ F32.leb p f_00001 = true).
Proof.
  split.
  - apply (is_stl_binary_below_wrap zero_uninit (only "triangle" triangle_file)
             "triangle" triangle_file eq_refl).
    vm_compute. reflexivity.
  - apply (is_stl_binary_below_wrap zero_uninit (only "c.stl" clamped_file)
             "c.stl" clamped_file eq_refl).
    vm_compute. reflexivity.
Defined.

(** ** [load] with the allocation of line 82 *)

(** [load_run] is [load_count] followed by the loop. *)
Lemma load_run_count (u : Uninit) (fs : filesystem) (filename : string)
  (this : StlBinary) :
  load_run u fs filename this
  = ('(file_handle, num_triangles) <- load_count u fs filename ;;
     load_loop u (Z.to_nat num_triangles) 0 (file_handle, this)).
Proof.
  unfold load_run, load_count.
  destruct (open fs filename) as [s0|e]; cbn [bind]; [|reflexivity].
  destruct (seekg_beg 80 s0) as [s1|e]; cbn [bind]; [|reflexivity].
  destruct (read 4 (uninit_num_triangles u) s1) as [[s2 obj]|e]; cbn [bind];
    [|reflexivity].
  destruct (seekg_end 0 s2) as [s3|e]; cbn [bind]; [|reflexivity].
  destruct (tellg s3) as [[s4 p]|e]; cbn [bind]; [|reflexivity].
  destruct (seekg_beg 84 s4) as [s5|e]; cbn [bind]; reflexivity.
Qed.

Lemma load_count_returns (u : Uninit) (fs : filesystem) (filename : string) :
  exists s n, load_count u fs filename = Returns (s, n) /\ unmasked s.
Proof.
  unfold load_count.
  destruct (open_returns fs filename) as (s0 & -> & H0). cbn [bind].
  destruct (seekg_returns 80 s0 H0) as (s1 & E1 & H1).
  unfold seekg_beg at 1. rewrite E1. cbn [bind].
  destruct (read_returns 4 (uninit_num_triangles u) s1 H1) as (s2 & obj & -> & H2).
  cbn [bind].
  destruct (seekg_end_returns 0 s2 H2) as (s3 & -> & H3). cbn [bind].
  destruct (tellg_returns s3 H3) as (s4 & p & -> & H4). cbn [bind].
  destruct (seekg_returns 84 s4 H4) as (s5 & E5 & H5).
  unfold seekg_beg. rewrite E5. cbn [bind]. eauto.
Qed.

(** [load] (lines 69-104, called at line 65): on every path [load] on a
    new object never throws an I/O error; it throws [std::bad_alloc]
    exactly when the count after the clamp is not zero and the
    allocation of line 82 fails; and when it returns, it returns what
    [load] returns where memory is taken to suffice. *)
Theorem load_new_returns_or_bad_alloc
  (alloc : Z -> bool) (u : Uninit) (fs : filesystem) (filename : string) :
  exists (file_handle : ifstream) (num_triangles : Z),
    load_count u fs filename = Returns (file_handle, num_triangles)
    /\ load_new alloc u fs filename <> Throws ios_failure
    /\ (load_new alloc u fs filename = Throws bad_alloc
        <-> (num_triangles <=? 0) || alloc num_triangles = false)
    /\ forall stl : StlBinary,
         load_new alloc u fs filename = Returns stl ->
         load u fs filename (mk_StlBinary []) = Returns stl.
Proof.
  destruct (load_count_returns u fs filename) as (s & n & Hcount & Hs).
  destruct (load_loop_returns u (Z.to_nat n) 0 s (mk_StlBinary []) Hs)
    as (s' & stl & Hloop & _).
  exists s, n. split; [exact Hcount|].
  assert (Hload : load u fs filename (mk_StlBinary []) = Returns stl)
    by (unfold load; rewrite load_run_count, Hcount; cbn [bind];
        now rewrite Hloop).
  assert (Hnew : load_new alloc u fs filename
                 = (if (n <=? 0) || alloc n then Returns stl else Throws bad_alloc)).
  { unfold load_new, reserve. rewrite Hcount. cbn [bind].
    destruct (n <=? 0); cbn [orb bind]; [now rewrite Hloop|].
    destruct (alloc n); cbn [bind]; [now rewrite Hloop | reflexivity]. }
  rewrite Hnew, Hload.
  destruct ((n <=? 0) || alloc n).
  - split; [discriminate|]. split; [split; discriminate|]. intros stl' H. exact H.
  - split; [discriminate|]. split; [split; reflexivity|]. discriminate.
Qed.

(** On a path that cannot be opened and on a file of fewer than 84 bytes
    the count is not clamped. *)
Lemma load_count_unclamped (u : Uninit) (fs : filesystem) (filename : string) :
  match fs filename with
  | Some f => file_size f < 84
  | None => True
  end ->
  exists (p : Z),
    load_count u fs filename
    = Returns (mk_ifstream (fs filename) p failbit goodbit,
               u32_of_bytes
                 (store match fs filename with
                        | Some f =>
                            file_bytes f 80 (Z.to_nat (Z.max 0 (file_size f - 80)))
                        | None => []
                        end
                        (uninit_num_triangles u))).
Proof.
  intros H. unfold load_count, open.
  destruct (fs filename) as [f|].
  - change (clear goodbit (mk_ifstream (Some f) 0 goodbit goodbit))
      with (Returns (mk_ifstream (Some f) 0 goodbit goodbit)).
    cbn [bind]. unfold seekg_beg at 1. rewrite seekg_good by lia. cbn [bind].
    rewrite read_partial by (cbn; lia). cbn [bind].
    rewrite seekg_end_after_short_read. cbn [bind].
    rewrite tellg_failed. cbn [bind].
    unfold seekg_beg. rewrite seekg_failed. cbn [bind].
    rewrite clamp_unknown_size by apply u32_of_bytes_bounds.
    eexists. reflexivity.
  - change (setstate failbit (mk_ifstream None 0 goodbit goodbit))
      with (Returns (mk_ifstream None 0 failbit goodbit)).
    cbn [bind]. unfold seekg_beg. rewrite seekg_failed. cbn [bind].
    rewrite read_failed. cbn [bind].
    change (seekg_end 0 (mk_ifstream None 0 failbit goodbit))
      with (Returns (mk_ifstream None 0 failbit goodbit)).
    cbn [bind]. rewrite tellg_failed. cbn [bind].
    rewrite seekg_failed. cbn [bind].
    rewrite clamp_unknown_size by apply u32_of_bytes_bounds.
    eexists. reflexivity.
Qed.

(** [load] (lines 69-104, called at line 65): on a path that cannot be
    opened and on a file of fewer than 84 bytes the count that reaches
    [reserve] is the unclamped, partly or wholly uninitialised
    [num_triangles].  [load] on a new object throws [std::bad_alloc] when
    that count is not zero and the allocation fails, and else returns
    that many triangles, each made of what the nine uninitialised
    [float]s held. *)
Theorem load_new_unclamped
  (alloc : Z -> bool) (u : Uninit) (fs : filesystem) (filename : string) :
  match fs filename with
  | Some f => file_size f < 84
  | None => True
  end ->
  load_new alloc u fs filename
  = (let num_triangles :=
       u32_of_bytes
         (store match fs filename with
                | Some f =>
                    file_bytes f 80 (Z.to_nat (Z.max 0 (file_size f - 80)))
                | None => []
                end
                (uninit_num_triangles u)) in
     if (num_triangles <=? 0) || alloc num_triangles
     then Returns (mk_StlBinary (uninit_triangles u 0 (Z.to_nat num_triangles)))
     else Throws bad_alloc).
Proof.
  intros H. destruct (load_count_unclamped u fs filename H) as (p & Hcount).
  cbv zeta. unfold load_new, reserve. rewrite Hcount. cbn [bind].
  set (n := u32_of_bytes _).
  destruct (n <=? 0); cbn [orb bind];
    [now rewrite load_loop_failed_uninit|].
  destruct (alloc n); cbn [bind]; [now rewrite load_loop_failed_uninit | reflexivity].
Qed.

(** The theorem at [short_file], the last byte of [num_triangles] having
    held FF, on a heap with room for a thousand triangles: the count is
    4278190081 and [load] throws; and at a path that names no file, the
    count having held zero: [load] returns no triangle. *)
Lemma load_new_unclamped_witness :
  load_new room_for_1000 top_byte_ff (only "short.stl" short_file) "short.stl"
  = Throws bad_alloc
  /\ load_new room_for_1000 zero_uninit no_files "missing.stl"
     = Returns (mk_StlBinary []).
Proof.
  split.
  - refine (load_new_unclamped room_for_1000 top_byte_ff
              (only "short.stl" short_file) "short.stl" _).
    vm_compute. reflexivity.
  - exact (load_new_unclamped room_for_1000 zero_uninit no_files "missing.stl" I).
Defined.
